(** * Diff output of libgit2: the output callback of the line diff, the
    binary classifier, the driver over the deltas, the two renderers and the
    pairwise blob diff ([src/diff_output.c]). *)

From Stdlib Require Import ZArith NArith List String Ascii Bool Lia.
Import ListNotations.

Local Open Scope list_scope.
Local Open Scope Z_scope.

Infix "+++" := String.append (right associativity, at level 60).

(** ** Error codes and machine integers *)

(** The error codes come from [git2/errors.h], which is not among the
    sources; the code only relies on [GIT_SUCCESS] being zero (it tests
    [!err]) and on the errors being distinct from it. *)
Definition GIT_SUCCESS : Z := 0.
Definition GIT_ERROR : Z := -1.
Definition GIT_ENOTFOUND : Z := -3.
Definition GIT_ENOMEM : Z := -4.
Definition GIT_EOSERR : Z := -5.

(** A C [int]: 32 bits, two's complement.  Signed overflow, which C leaves
    undefined, is taken to wrap around. *)
Definition wrap_int (x : Z) : Z := (x + 2 ^ 31) mod 2 ^ 32 - 2 ^ 31.

(** ** Characters and C strings

    A [const char *] is the string of the bytes it points to; running off
    the end of the string reads the terminating NUL. *)
Definition NUL : ascii := "000"%char.
Definition TAB : ascii := "009"%char.
Definition LF : ascii := "010"%char.

Definition char_code (c : ascii) : Z := Z.of_N (N_of_ascii c).

Definition isdigit (c : ascii) : bool :=
  (48 <=? char_code c) && (char_code c <=? 57).

Definition is_nul (c : ascii) : bool := Ascii.eqb c NUL.

Definition first_byte (s : string) : ascii :=
  match s with
  | EmptyString => NUL
  | String c _ => c
  end.

Definition str1 (c : ascii) : string := String c EmptyString.

(** xdiff's [mmbuffer_t], a pointer and a size.  [ptr] is the bytes that lie
    in memory from the pointer on: they begin with the buffer and need not
    end where it ends.  [size] is the length of the buffer, which is not
    negative. *)
Record mmbuffer_t := {
  ptr : string;
  size : Z
}.

(** The buffer itself, the first [size] bytes at [ptr]: what a callback
    that is handed the pointer and the size is given. *)
Fixpoint first_bytes (n : nat) (s : string) : string :=
  match n, s with
  | S k, String c rest => String c (first_bytes k rest)
  | _, _ => EmptyString
  end.

Definition buffer_bytes (b : mmbuffer_t) : string :=
  first_bytes (Z.to_nat (size b)) (ptr b).

(** ** Data model ([git2/diff.h]) *)

(** A content identity: the 160-bit hash read as a number; zero is the
    absent sentinel. *)
Definition git_oid := N.

Definition git_oid_iszero (o : git_oid) : bool := N.eqb o 0.

Definition git_oid_cmp (a b : git_oid) : Z :=
  match N.compare a b with Eq => 0 | Lt => -1 | Gt => 1 end.

Inductive git_delta_t :=
| GIT_DELTA_UNMODIFIED
| GIT_DELTA_ADDED
| GIT_DELTA_DELETED
| GIT_DELTA_MODIFIED
| GIT_DELTA_RENAMED
| GIT_DELTA_COPIED
| GIT_DELTA_IGNORED
| GIT_DELTA_UNTRACKED.

Definition git_delta_t_eqb (a b : git_delta_t) : bool :=
  match a, b with
  | GIT_DELTA_UNMODIFIED, GIT_DELTA_UNMODIFIED
  | GIT_DELTA_ADDED, GIT_DELTA_ADDED
  | GIT_DELTA_DELETED, GIT_DELTA_DELETED
  | GIT_DELTA_MODIFIED, GIT_DELTA_MODIFIED
  | GIT_DELTA_RENAMED, GIT_DELTA_RENAMED
  | GIT_DELTA_COPIED, GIT_DELTA_COPIED
  | GIT_DELTA_IGNORED, GIT_DELTA_IGNORED
  | GIT_DELTA_UNTRACKED, GIT_DELTA_UNTRACKED => true
  | _, _ => false
  end.

(** The flag words of a file side.  The constants are those of
    [git2/diff.h] (not among the sources): independent single bits. *)
Definition GIT_DIFF_FILE_VALID_OID : Z := 1.
Definition GIT_DIFF_FILE_FREE_PATH : Z := 2.
Definition GIT_DIFF_FILE_BINARY : Z := 4.
Definition GIT_DIFF_FILE_NOT_BINARY : Z := 8.
Definition GIT_DIFF_FILE_FREE_DATA : Z := 16.
Definition GIT_DIFF_FILE_UNMAP_DATA : Z := 32.

(** The option flags, likewise single bits of [git2/diff.h]. *)
Definition GIT_DIFF_REVERSE : Z := 1.
Definition GIT_DIFF_FORCE_TEXT : Z := 2.
Definition GIT_DIFF_INCLUDE_IGNORED : Z := 128.
Definition GIT_DIFF_INCLUDE_UNTRACKED : Z := 256.

(** [git_diff_file]: a path pointer may be NULL ([None]). *)
Record git_diff_file := {
  f_oid : git_oid;
  f_path : option string;
  f_mode : Z;
  f_size : Z;
  f_flags : Z
}.

(** [git_diff_delta]; [d_binary] is the tri-state: -1 unresolved, 0 text,
    1 binary. *)
Record git_diff_delta := {
  d_old : git_diff_file;
  d_new : git_diff_file;
  d_status : git_delta_t;
  d_similarity : Z;
  d_binary : Z
}.

Record git_diff_range := {
  old_start : Z;
  old_lines : Z;
  new_start : Z;
  new_lines : Z
}.

Record git_diff_options := {
  o_flags : Z;
  o_context_lines : Z;
  o_interhunk_lines : Z;
  o_src_prefix : string;
  o_dst_prefix : string
}.

(** The origin of a line handed to a line or print callback. *)
Inductive git_diff_line_t :=
| GIT_DIFF_LINE_CONTEXT
| GIT_DIFF_LINE_ADDITION
| GIT_DIFF_LINE_DELETION
| GIT_DIFF_LINE_ADD_EOFNL
| GIT_DIFF_LINE_DEL_EOFNL
| GIT_DIFF_LINE_FILE_HDR
| GIT_DIFF_LINE_HUNK_HDR
| GIT_DIFF_LINE_BINARY.

(** Field updates. *)
Definition set_f_flags (f : git_diff_file) (v : Z) : git_diff_file :=
  {| f_oid := f_oid f; f_path := f_path f; f_mode := f_mode f;
     f_size := f_size f; f_flags := v |}.

Definition set_f_oid (f : git_diff_file) (v : git_oid) : git_diff_file :=
  {| f_oid := v; f_path := f_path f; f_mode := f_mode f;
     f_size := f_size f; f_flags := f_flags f |}.

Definition set_d_old (d : git_diff_delta) (f : git_diff_file)
    : git_diff_delta :=
  {| d_old := f; d_new := d_new d; d_status := d_status d;
     d_similarity := d_similarity d; d_binary := d_binary d |}.

Definition set_d_new (d : git_diff_delta) (f : git_diff_file)
    : git_diff_delta :=
  {| d_old := d_old d; d_new := f; d_status := d_status d;
     d_similarity := d_similarity d; d_binary := d_binary d |}.

Definition set_d_status (d : git_diff_delta) (s : git_delta_t)
    : git_diff_delta :=
  {| d_old := d_old d; d_new := d_new d; d_status := s;
     d_similarity := d_similarity d; d_binary := d_binary d |}.

Definition set_d_binary (d : git_diff_delta) (b : Z) : git_diff_delta :=
  {| d_old := d_old d; d_new := d_new d; d_status := d_status d;
     d_similarity := d_similarity d; d_binary := b |}.

(** ** [read_next_int] *)

(** The first loop: advance to the next digit or to the NUL. *)
Fixpoint find_next_digit (scan : string) : string :=
  match scan with
  | EmptyString => scan
  | String c rest =>
      if negb (is_nul c) && negb (isdigit c) then find_next_digit rest
      else scan
  end.

(** The second loop: accumulate the digit run in an [int]. *)
Fixpoint parse_next_number (scan : string) (v digits : Z) : string * Z * Z :=
  match scan with
  | EmptyString => (scan, v, digits)
  | String c rest =>
      if isdigit c
      then parse_next_number rest
             (wrap_int (wrap_int (v * 10) + (char_code c - 48)))
             (wrap_int (digits + 1))
      else (scan, v, digits)
  end.

(** Returns the advanced [*str], [*value] and the error code. *)
Definition read_next_int (str : string) : string * Z * Z :=
  let '(scan, v, digits) := parse_next_number (find_next_digit str) 0 0 in
  (scan, v, if 0 <? digits then GIT_SUCCESS else GIT_ENOTFOUND).

(** ** The callbacks and what they leave behind

    A callback is a function of the caller's [cb_data] (of type [U]) and of
    its arguments that returns the new [cb_data] and its status code; it
    does not write to the delta it is handed.  Every invocation is also
    logged, in order, in a trace, and so are every release of a resource
    and the abort of the process by an assertion that fails. *)
Section Driver.

Context {U : Type}.

(** The file callback receives the progress as the pair index, length (the
    code hands over their quotient as a [float]). *)
Definition git_diff_file_fn := U -> git_diff_delta -> nat * nat -> U * Z.
Definition git_diff_hunk_fn :=
  U -> git_diff_delta -> git_diff_range -> string -> U * Z.
Definition git_diff_line_fn :=
  U -> git_diff_delta -> git_diff_line_t -> string -> U * Z.

Inductive side := Old_side | New_side.

Inductive event :=
| Ev_file (d : git_diff_delta) (progress : nat * nat)
| Ev_hunk (d : git_diff_delta) (r : git_diff_range) (header : string)
| Ev_line (d : git_diff_delta) (origin : git_diff_line_t) (content : string)
| Ev_blob_free (s : side)
| Ev_free (s : side)
| Ev_unmap (s : side)
| Ev_abort.

Record world := {
  cb_data : U;
  trace : list event
}.

Definition call_file (cb : git_diff_file_fn) (d : git_diff_delta)
    (progress : nat * nat) (w : world) : Z * world :=
  let '(u, e) := cb (cb_data w) d progress in
  (e, {| cb_data := u; trace := trace w ++ [Ev_file d progress] |}).

Definition call_hunk (cb : git_diff_hunk_fn) (d : git_diff_delta)
    (r : git_diff_range) (header : string) (w : world) : Z * world :=
  let '(u, e) := cb (cb_data w) d r header in
  (e, {| cb_data := u; trace := trace w ++ [Ev_hunk d r header] |}).

Definition call_line (cb : git_diff_line_fn) (d : git_diff_delta)
    (origin : git_diff_line_t) (content : string) (w : world) : Z * world :=
  let '(u, e) := cb (cb_data w) d origin content in
  (e, {| cb_data := u; trace := trace w ++ [Ev_line d origin content] |}).

(** [diff_output_info] without its [diff], [index] and [cb_data] members:
    the first two are not read by the output callback and the third lives in
    the [world]. *)
Record diff_output_info := {
  info_hunk_cb : option git_diff_hunk_fn;
  info_line_cb : option git_diff_line_fn;
  info_delta : git_diff_delta
}.

(** ** [diff_output_cb] *)

(** The header scan of [diff_output_cb], from [bufs[0].ptr] on: the error
    code and the range it leaves, starting from the range [{-1, 0, -1, 0}].
    The scan goes by the bytes in memory; it does not look at the size of
    the buffer. *)
Definition scan_hunk_header (str : string) : Z * git_diff_range :=
  let '(scan, os, err) := read_next_int str in
  let '(scan, ol, err) :=
    if (err =? 0) && Ascii.eqb (first_byte scan) ","%char
    then read_next_int scan else (scan, 0, err) in
  if err =? 0 then
    let '(scan, ns, err) := read_next_int scan in
    let '(scan, nl, err) :=
      if (err =? 0) && Ascii.eqb (first_byte scan) ","%char
      then read_next_int scan else (scan, 0, err) in
    (err, {| old_start := os; old_lines := ol;
             new_start := ns; new_lines := nl |})
  else
    (err, {| old_start := os; old_lines := ol;
             new_start := -1; new_lines := 0 |}).

(** An output unit of the line diff is the array [bufs] of [len] buffers.
    The header scan and the test of the first byte read the memory at
    [bufs[0].ptr]; the callbacks are handed a pointer and a size. *)
Definition diff_output_cb (info : diff_output_info) (bufs : list mmbuffer_t)
    (w : world) : Z * world :=
  match bufs with
  | [b0] =>
      match info_hunk_cb info with
      | Some hunk_cb =>
          if Ascii.eqb (first_byte (ptr b0)) "@"%char then
            let '(err, range) := scan_hunk_header (ptr b0) in
            if (err =? 0) && (0 <=? old_start range) && (0 <=? new_start range)
            then call_hunk hunk_cb (info_delta info) range (buffer_bytes b0) w
            else (err, w)
          else (GIT_SUCCESS, w)
      | None => (GIT_SUCCESS, w)
      end
  | b0 :: b1 :: tl =>
      match tl, info_line_cb info with
      | ([] | [_]), Some line_cb =>
          let origin :=
            if Ascii.eqb (first_byte (ptr b0)) "+"%char
            then GIT_DIFF_LINE_ADDITION
            else if Ascii.eqb (first_byte (ptr b0)) "-"%char
            then GIT_DIFF_LINE_DELETION
            else GIT_DIFF_LINE_CONTEXT in
          let '(err, w) :=
            call_line line_cb (info_delta info) origin (buffer_bytes b1) w in
          match tl with
          | [b2] =>
              if err =? GIT_SUCCESS then
                let origin :=
                  match origin with
                  | GIT_DIFF_LINE_ADDITION => GIT_DIFF_LINE_ADD_EOFNL
                  | _ => GIT_DIFF_LINE_DEL_EOFNL
                  end in
                call_line line_cb (info_delta info) origin (buffer_bytes b2) w
              else (err, w)
          | _ => (err, w)
          end
      | _, _ => (GIT_SUCCESS, w)
      end
  | _ => (GIT_SUCCESS, w)
  end.


(** ** [setup_xdiff_options]

    The two members of [xdemitconf_t] and the one of [xpparam_t] the
    function sets after clearing both structures.  The constants are those
    of [git2/diff.h] and [xdiff/xdiff.h] (not among the sources). *)
Record xdemitconf_t := {
  ctxlen : Z;
  interhunkctxlen : Z
}.

Record xpparam_t := {
  xpp_flags : Z
}.

Definition GIT_DIFF_IGNORE_WHITESPACE : Z := 4.
Definition GIT_DIFF_IGNORE_WHITESPACE_CHANGE : Z := 8.
Definition GIT_DIFF_IGNORE_WHITESPACE_EOL : Z := 16.

Definition XDF_IGNORE_WHITESPACE : Z := 4.
Definition XDF_IGNORE_WHITESPACE_CHANGE : Z := 8.
Definition XDF_IGNORE_WHITESPACE_AT_EOL : Z := 16.
Definition XDF_WHITESPACE_FLAGS : Z :=
  Z.lor XDF_IGNORE_WHITESPACE
    (Z.lor XDF_IGNORE_WHITESPACE_CHANGE XDF_IGNORE_WHITESPACE_AT_EOL).

(** [flags & bit] as a truth value. *)
Definition has_flag (flags bit : Z) : bool := negb (Z.land flags bit =? 0).

Definition setup_xdiff_options (opts : option git_diff_options)
    : xdemitconf_t * xpparam_t :=
  let cfg :=
    {| ctxlen :=
         match opts with
         | Some o => if o_context_lines o =? 0 then 3 else o_context_lines o
         | None => 3
         end;
       interhunkctxlen :=
         match opts with
         | Some o => if o_interhunk_lines o =? 0 then 3 else o_interhunk_lines o
         | None => 3
         end |} in
  match opts with
  | None => (cfg, {| xpp_flags := 0 |})
  | Some o =>
      let flags := 0 in
      let flags :=
        if has_flag (o_flags o) GIT_DIFF_IGNORE_WHITESPACE
        then Z.lor flags XDF_WHITESPACE_FLAGS else flags in
      let flags :=
        if has_flag (o_flags o) GIT_DIFF_IGNORE_WHITESPACE_CHANGE
        then Z.lor flags XDF_IGNORE_WHITESPACE_CHANGE else flags in
      let flags :=
        if has_flag (o_flags o) GIT_DIFF_IGNORE_WHITESPACE_EOL
        then Z.lor flags XDF_IGNORE_WHITESPACE_AT_EOL else flags in
      (cfg, {| xpp_flags := flags |})
  end.

(** ** What lies outside this file *)

(** [git_map] and xdiff's [mmfile_t] (the code casts one into the other): a
    pointer, NULL being [None], and a length. *)
Record git_map := {
  m_data : option string;
  m_len : Z
}.

Definition empty_map : git_map := {| m_data := Some EmptyString; m_len := 0 |}.

Record git_blob := {
  blob_id : git_oid;
  git_blob_rawcontent : option string;
  git_blob_rawsize : Z
}.

(** The value of the "diff" attribute of a path. *)
Inductive attr_value := ATTR_TRUE | ATTR_FALSE | ATTR_OTHER.

Definition GIT_ATTR_TRUE (v : attr_value) : bool :=
  match v with ATTR_TRUE => true | _ => false end.

Definition GIT_ATTR_FALSE (v : attr_value) : bool :=
  match v with ATTR_FALSE => true | _ => false end.

(** Everything the driver consults through [diff->repo], libc and xdiff: the
    attribute system, the object store, the working directory and the line
    diff.  Each function returns its error code together with what it
    writes through its out parameter.  [xdl_units] is the sequence of output
    units the line diff emits for two buffers under the parameters and the
    configuration it is handed, when it is never interrupted. *)
Record git_repository := {
  git_attr_get : option string -> string -> Z * attr_value;
  git_blob_lookup : git_oid -> Z * git_blob;
  git_odb_hash : option string -> Z -> Z * git_oid;
  git_buf_joinpath : option string -> Z * string;
  git__malloc : Z -> bool;
  p_readlink : string -> Z -> Z * string;
  git_futils_mmap_ro_file : git_map -> string -> Z * git_map;
  xdl_units :
    git_map -> git_map -> xpparam_t -> xdemitconf_t -> list (list mmbuffer_t);
  null_object_id : git_oid;
  size_t_bits : Z
}.

(** [git_object_id]; what it yields for a NULL object is left to the
    environment. *)
Definition git_object_id (r : git_repository) (b : option git_blob) : git_oid :=
  match b with
  | Some b => blob_id b
  | None => null_object_id r
  end.

Inductive git_iterator_type_t :=
| GIT_ITERATOR_EMPTY
| GIT_ITERATOR_TREE
| GIT_ITERATOR_INDEX
| GIT_ITERATOR_WORKDIR.

Record git_diff_list := {
  repo : git_repository;
  opts : git_diff_options;
  deltas : list git_diff_delta;
  old_src : git_iterator_type_t;
  new_src : git_iterator_type_t
}.

(** [a == b || strcmp(a, b) == 0] on two path pointers. *)
Definition same_path (a b : option string) : bool :=
  match a, b with
  | Some x, Some y => String.eqb x y
  | None, None => true
  | _, _ => false
  end.

(** ** The binary classifier *)

Definition BINARY_DIFF_FLAGS : Z :=
  Z.lor GIT_DIFF_FILE_BINARY GIT_DIFF_FILE_NOT_BINARY.

Definition set_file_is_binary_by_attr (r : git_repository)
    (file : git_diff_file) : Z * git_diff_file :=
  let '(error, value) := git_attr_get r (f_path file) "diff" in
  if negb (error =? GIT_SUCCESS) then (error, file)
  else if GIT_ATTR_FALSE value then
    (error, set_f_flags file (Z.lor (f_flags file) GIT_DIFF_FILE_BINARY))
  else if GIT_ATTR_TRUE value then
    (error, set_f_flags file (Z.lor (f_flags file) GIT_DIFF_FILE_NOT_BINARY))
  else (error, file).

Definition set_delta_is_binary (delta : git_diff_delta) : git_diff_delta :=
  if has_flag (f_flags (d_old delta)) GIT_DIFF_FILE_BINARY
     || has_flag (f_flags (d_new delta)) GIT_DIFF_FILE_BINARY
  then set_d_binary delta 1
  else if has_flag (f_flags (d_old delta)) GIT_DIFF_FILE_NOT_BINARY
          || has_flag (f_flags (d_new delta)) GIT_DIFF_FILE_NOT_BINARY
  then set_d_binary delta 0
  else delta.

(** [(git_off_t)((size_t)size) != size]: the size, a 64-bit [git_off_t],
    does not survive the trip through [size_t]. *)
Definition to_size_t (r : git_repository) (x : Z) : Z :=
  x mod 2 ^ size_t_bits r.
Definition to_off_t (x : Z) : Z := (x + 2 ^ 63) mod 2 ^ 64 - 2 ^ 63.

Definition to_ssize_t (r : git_repository) (x : Z) : Z :=
  (x + 2 ^ (size_t_bits r - 1)) mod 2 ^ size_t_bits r - 2 ^ (size_t_bits r - 1).

Definition size_overflows (r : git_repository) (size : Z) : bool :=
  negb (to_off_t (to_size_t r size) =? size).

Definition or_flag (f : git_diff_file) (bit : Z) : git_diff_file :=
  set_f_flags f (Z.lor (f_flags f) bit).

Definition file_is_binary_by_attr (diff : git_diff_list)
    (delta : git_diff_delta) : Z * git_diff_delta :=
  let delta := set_d_binary delta (-1) in
  if size_overflows (repo diff) (f_size (d_old delta))
     || size_overflows (repo diff) (f_size (d_new delta))
  then
    let delta := set_d_old delta (or_flag (d_old delta) GIT_DIFF_FILE_BINARY) in
    let delta := set_d_new delta (or_flag (d_new delta) GIT_DIFF_FILE_BINARY) in
    (GIT_SUCCESS, set_d_binary delta 1)
  else if has_flag (o_flags (opts diff)) GIT_DIFF_FORCE_TEXT then
    let delta :=
      set_d_old delta (or_flag (d_old delta) GIT_DIFF_FILE_NOT_BINARY) in
    let delta :=
      set_d_new delta (or_flag (d_new delta) GIT_DIFF_FILE_NOT_BINARY) in
    (GIT_SUCCESS, set_d_binary delta 0)
  else
    let '(error, old) := set_file_is_binary_by_attr (repo diff) (d_old delta) in
    let delta := set_d_old delta old in
    if negb (error =? GIT_SUCCESS) then (error, delta)
    else
      let mirror_new :=
        same_path (f_path (d_new delta)) (f_path (d_old delta)) in
      let '(error, new) :=
        if mirror_new then
          (error,
           set_f_flags (d_new delta)
             (Z.land (f_flags (d_new delta))
                (Z.land (f_flags (d_old delta)) BINARY_DIFF_FLAGS)))
        else set_file_is_binary_by_attr (repo diff) (d_new delta) in
      (error, set_delta_is_binary (set_d_new delta new)).

(** [strnlen]: the bytes before the first NUL, at most [n] of them. *)
Fixpoint strnlen_bytes (s : string) (n : nat) : Z :=
  match n, s with
  | S k, String c rest => if is_nul c then 0 else 1 + strnlen_bytes rest k
  | _, _ => 0
  end.

Definition strnlen (p : option string) (n : Z) : Z :=
  match p with
  | Some s => strnlen_bytes s (Z.to_nat n)
  | None => 0
  end.

Definition sniff_side (file : git_diff_file) (map : git_map) : git_diff_file :=
  if Z.land (f_flags file) BINARY_DIFF_FLAGS =? 0 then
    let search_len := Z.min (m_len map) 4000 in
    if negb (strnlen (m_data map) search_len =? search_len)
    then or_flag file GIT_DIFF_FILE_BINARY
    else or_flag file GIT_DIFF_FILE_NOT_BINARY
  else file.

Definition file_is_binary_by_content (delta : git_diff_delta)
    (old_data new_data : git_map) : Z * git_diff_delta :=
  let delta := set_d_old delta (sniff_side (d_old delta) old_data) in
  let delta := set_d_new delta (sniff_side (d_new delta) new_data) in
  (GIT_SUCCESS, set_delta_is_binary delta).

(** ** The content loader *)

Definition get_blob_content (r : git_repository) (oid : git_oid)
    (map : git_map) (blob : option git_blob) : Z * git_map * option git_blob :=
  if git_oid_iszero oid then (GIT_SUCCESS, map, blob)
  else
    let '(error, b) := git_blob_lookup r oid in
    if error =? GIT_SUCCESS then
      (error,
       {| m_data := git_blob_rawcontent b; m_len := git_blob_rawsize b |},
       Some b)
    else (error, map, blob).

(** [S_ISLNK] and [S_ISDIR] of [sys/stat.h]: the file type bits 0170000 are
    0120000, respectively 0040000. *)
Definition S_ISLNK (mode : Z) : bool := Z.land mode 61440 =? 40960.
Definition S_ISDIR (mode : Z) : bool := Z.land mode 61440 =? 16384.

Definition get_workdir_content (r : git_repository) (file : git_diff_file)
    (map : git_map) : Z * git_diff_file * git_map :=
  let '(error, full_path) := git_buf_joinpath r (f_path file) in
  if negb (error =? GIT_SUCCESS) then (error, file, map)
  else if S_ISLNK (f_mode file) then
    let file := or_flag file GIT_DIFF_FILE_FREE_DATA in
    let file := or_flag file GIT_DIFF_FILE_BINARY in
    let alloc := to_size_t r (to_size_t r (f_size file) + 1) in
    if negb (git__malloc r alloc)
    then (GIT_ENOMEM, file, {| m_data := None; m_len := m_len map |})
    else
      let '(read_len, target) := p_readlink r full_path alloc in
      if negb (read_len =? to_ssize_t r (f_size file))
      then (GIT_EOSERR, file, {| m_data := Some target; m_len := m_len map |})
      else (error, file, {| m_data := Some target; m_len := read_len |})
  else
    let '(error, map) := git_futils_mmap_ro_file r map full_path in
    (error, or_flag file GIT_DIFF_FILE_UNMAP_DATA, map).

Definition log (e : event) (w : world) : world :=
  {| cb_data := cb_data w; trace := trace w ++ [e] |}.

Definition clear_flag (f : git_diff_file) (bit : Z) : git_diff_file :=
  set_f_flags f (Z.land (f_flags f) (Z.lnot bit)).

Definition release_content (s : side) (file : git_diff_file) (map : git_map)
    (blob : option git_blob) (w : world) : git_diff_file * git_map * world :=
  let w := match blob with Some _ => log (Ev_blob_free s) w | None => w end in
  if has_flag (f_flags file) GIT_DIFF_FILE_FREE_DATA then
    (clear_flag file GIT_DIFF_FILE_FREE_DATA,
     {| m_data := None; m_len := m_len map |}, log (Ev_free s) w)
  else if has_flag (f_flags file) GIT_DIFF_FILE_UNMAP_DATA then
    (clear_flag file GIT_DIFF_FILE_UNMAP_DATA,
     {| m_data := None; m_len := m_len map |}, log (Ev_unmap s) w)
  else (file, map, w).

(** ** The line diff

    Modelled from the spec: [xdl_diff] of the bundled xdiff library, which is
    not among the sources.  It is given two buffers, the parameters, the
    configuration and the output callback; it emits its output units in
    order through the output callback, and "any callback returning
    non-success aborts the remaining algorithm invocation"; it then fails
    itself. *)
Fixpoint xdl_emit (outf : list mmbuffer_t -> world -> Z * world)
    (units : list (list mmbuffer_t)) (w : world) : Z * world :=
  match units with
  | [] => (0, w)
  | bufs :: rest =>
      let '(err, w) := outf bufs w in
      if negb (err =? GIT_SUCCESS) then (-1, w) else xdl_emit outf rest w
  end.

Definition xdl_diff (r : git_repository) (old new : git_map)
    (xpp : xpparam_t) (xecfg : xdemitconf_t)
    (outf : list mmbuffer_t -> world -> Z * world) (w : world) : Z * world :=
  xdl_emit outf (xdl_units r old new xpp xecfg) w.

(** ** [git_diff_foreach] *)

(** The local variables of one round of the loop over the deltas. *)
Record iteration := {
  it_error : Z;
  it_delta : git_diff_delta;
  it_old_data : git_map;
  it_new_data : git_map;
  it_old_blob : option git_blob;
  it_new_blob : option git_blob;
  it_world : world
}.

Definition set_it_error (it : iteration) (e : Z) : iteration :=
  {| it_error := e; it_delta := it_delta it;
     it_old_data := it_old_data it; it_new_data := it_new_data it;
     it_old_blob := it_old_blob it; it_new_blob := it_new_blob it;
     it_world := it_world it |}.

Definition set_it_delta (it : iteration) (d : git_diff_delta) : iteration :=
  {| it_error := it_error it; it_delta := d;
     it_old_data := it_old_data it; it_new_data := it_new_data it;
     it_old_blob := it_old_blob it; it_new_blob := it_new_blob it;
     it_world := it_world it |}.

Definition set_it_old (it : iteration) (m : git_map) (b : option git_blob)
    : iteration :=
  {| it_error := it_error it; it_delta := it_delta it;
     it_old_data := m; it_new_data := it_new_data it;
     it_old_blob := b; it_new_blob := it_new_blob it;
     it_world := it_world it |}.

Definition set_it_new (it : iteration) (m : git_map) (b : option git_blob)
    : iteration :=
  {| it_error := it_error it; it_delta := it_delta it;
     it_old_data := it_old_data it; it_new_data := m;
     it_old_blob := it_old_blob it; it_new_blob := b;
     it_world := it_world it |}.

Definition set_it_world (it : iteration) (w : world) : iteration :=
  {| it_error := it_error it; it_delta := it_delta it;
     it_old_data := it_old_data it; it_new_data := it_new_data it;
     it_old_blob := it_old_blob it; it_new_blob := it_new_blob it;
     it_world := w |}.

(** A stage of the round jumps to the [cleanup] label, falls through to
    the next stage, or fails an assertion, which aborts the process where it
    is. *)
Inductive flow :=
| Goto_cleanup (it : iteration)
| Fall_through (it : iteration)
| Abort (it : iteration).

Definition and_then (f : flow) (k : iteration -> flow) : flow :=
  match f with
  | Goto_cleanup it => Goto_cleanup it
  | Fall_through it => k it
  | Abort it => Abort it
  end.

Notation "f >>> k" := (and_then f k) (at level 55, left associativity).

Definition flow_end (f : flow) : iteration :=
  match f with Goto_cleanup it | Fall_through it | Abort it => it end.

Definition is_some {A : Type} (o : option A) : bool :=
  match o with Some _ => true | None => false end.

Section Foreach.

Variable diff : git_diff_list.
Variable file_cb : option git_diff_file_fn.
Variable hunk_cb : option git_diff_hunk_fn.
Variable line_cb : option git_diff_line_fn.

(** The three [continue] tests at the head of the loop. *)
Definition skip_delta (delta : git_diff_delta) : bool :=
  git_delta_t_eqb (d_status delta) GIT_DELTA_UNMODIFIED
  || (git_delta_t_eqb (d_status delta) GIT_DELTA_IGNORED
      && (Z.land (o_flags (opts diff)) GIT_DIFF_INCLUDE_IGNORED =? 0))
  || (git_delta_t_eqb (d_status delta) GIT_DELTA_UNTRACKED
      && (Z.land (o_flags (opts diff)) GIT_DIFF_INCLUDE_UNTRACKED =? 0)).

Definition stage_classify (it : iteration) : flow :=
  let '(error, delta) := file_is_binary_by_attr diff (it_delta it) in
  let it := set_it_delta (set_it_error it error) delta in
  if error <? GIT_SUCCESS then Goto_cleanup it
  else Fall_through (set_it_new (set_it_old it empty_map (it_old_blob it))
                       empty_map (it_new_blob it)).

Definition stage_load_old (it : iteration) : flow :=
  let delta := it_delta it in
  if negb (d_binary delta =? 1)
     && (is_some hunk_cb || is_some line_cb)
     && (git_delta_t_eqb (d_status delta) GIT_DELTA_DELETED
         || git_delta_t_eqb (d_status delta) GIT_DELTA_MODIFIED)
  then
    let it :=
      match old_src diff with
      | GIT_ITERATOR_WORKDIR =>
          let '(error, file, map) :=
            get_workdir_content (repo diff) (d_old delta) (it_old_data it) in
          set_it_old (set_it_delta (set_it_error it error) (set_d_old delta file))
            map (it_old_blob it)
      | _ =>
          let '(error, map, blob) :=
            get_blob_content (repo diff) (f_oid (d_old delta))
              (it_old_data it) (it_old_blob it) in
          set_it_old (set_it_error it error) map blob
      end in
    if negb (it_error it =? GIT_SUCCESS) then Goto_cleanup it
    else Fall_through it
  else Fall_through it.

(** The hashing of freshly loaded content, guarded as in the code by
    [(delta->new.flags | GIT_DIFF_FILE_VALID_OID) == 0]. *)
Definition reconcile_oid (it : iteration) : flow :=
  let delta := it_delta it in
  if Z.lor (f_flags (d_new delta)) GIT_DIFF_FILE_VALID_OID =? 0 then
    let '(error, oid) :=
      git_odb_hash (repo diff) (m_data (it_new_data it)) (m_len (it_new_data it)) in
    let delta := set_d_new delta (set_f_oid (d_new delta) oid) in
    let it := set_it_delta (set_it_error it error) delta in
    if negb (error =? GIT_SUCCESS) then Goto_cleanup it
    else if git_oid_cmp (f_oid (d_old delta)) (f_oid (d_new delta)) =? 0
    then Goto_cleanup (set_it_delta it (set_d_status delta GIT_DELTA_UNMODIFIED))
    else Fall_through it
  else Fall_through it.

Definition stage_load_new (it : iteration) : flow :=
  let delta := it_delta it in
  if negb (d_binary delta =? 1)
     && (is_some hunk_cb || is_some line_cb
         || git_oid_iszero (f_oid (d_new delta)))
     && (git_delta_t_eqb (d_status delta) GIT_DELTA_ADDED
         || git_delta_t_eqb (d_status delta) GIT_DELTA_MODIFIED)
  then
    let it :=
      match new_src diff with
      | GIT_ITERATOR_WORKDIR =>
          let '(error, file, map) :=
            get_workdir_content (repo diff) (d_new delta) (it_new_data it) in
          set_it_new (set_it_delta (set_it_error it error) (set_d_new delta file))
            map (it_new_blob it)
      | _ =>
          let '(error, map, blob) :=
            get_blob_content (repo diff) (f_oid (d_new delta))
              (it_new_data it) (it_new_blob it) in
          set_it_new (set_it_error it error) map blob
      end in
    if negb (it_error it =? GIT_SUCCESS) then Goto_cleanup it
    else reconcile_oid it
  else Fall_through it.

Definition stage_sniff (it : iteration) : flow :=
  if d_binary (it_delta it) =? -1 then
    let '(error, delta) :=
      file_is_binary_by_content (it_delta it) (it_old_data it) (it_new_data it) in
    let it := set_it_delta (set_it_error it error) delta in
    if error <? GIT_SUCCESS then Goto_cleanup it else Fall_through it
  else Fall_through it.

Definition stage_file_cb (index : nat) (it : iteration) : flow :=
  match file_cb with
  | Some cb =>
      let '(error, w) :=
        call_file cb (it_delta it) (index, List.length (deltas diff)) (it_world it) in
      let it := set_it_world (set_it_error it error) w in
      if negb (error =? GIT_SUCCESS) then Goto_cleanup it else Fall_through it
  | None => Fall_through it
  end.

(** The tail of the round: the two early exits, the assertion that there
    is a hunk or a line callback, then [xdl_diff] under the parameters that
    [setup_xdiff_options] made of the options of the diff list; the code
    does not look at what [xdl_diff] returns. *)
Definition stage_diff (it : iteration) : flow :=
  if d_binary (it_delta it) =? 1 then Goto_cleanup it
  else if (m_len (it_old_data it) =? 0) && (m_len (it_new_data it) =? 0)
  then Goto_cleanup it
  else if negb (is_some hunk_cb || is_some line_cb) then Abort it
  else
    let '(xdiff_config, xdiff_params) :=
      setup_xdiff_options (Some (opts diff)) in
    let info :=
      {| info_hunk_cb := hunk_cb; info_line_cb := line_cb;
         info_delta := it_delta it |} in
    let '(_, w) :=
      xdl_diff (repo diff) (it_old_data it) (it_new_data it)
        xdiff_params xdiff_config (diff_output_cb info) (it_world it) in
    Fall_through (set_it_world it w).

(** The [cleanup] label. *)
Definition cleanup (it : iteration) : Z * git_diff_delta * world :=
  let delta := it_delta it in
  let '(old, _, w) :=
    release_content Old_side (d_old delta) (it_old_data it) (it_old_blob it)
      (it_world it) in
  let '(new, _, w) :=
    release_content New_side (d_new delta) (it_new_data it) (it_new_blob it) w in
  (it_error it, set_d_new (set_d_old delta old) new, w).

(** The body of the loop down to the [cleanup] label. *)
Definition round_flow (index : nat) (delta : git_diff_delta) (w : world)
    : flow :=
  let it :=
    {| it_error := GIT_SUCCESS; it_delta := delta;
       it_old_data := empty_map; it_new_data := empty_map;
       it_old_blob := None; it_new_blob := None; it_world := w |} in
  stage_classify it >>> stage_load_old >>> stage_load_new
  >>> stage_sniff >>> stage_file_cb index >>> stage_diff.

Definition round_aborts (index : nat) (delta : git_diff_delta) (w : world)
    : bool :=
  match round_flow index delta w with
  | Abort _ => true
  | _ => false
  end.

(** One round of the loop: the error, the delta and the world it leaves.
    A round that is aborted releases nothing and has no successor: what is
    given for it is [error] and the delta as they are when the process
    dies, and a trace that ends with [Ev_abort]. *)
Definition foreach_round (index : nat) (delta : git_diff_delta) (w : world)
    : Z * git_diff_delta * world :=
  match round_flow index delta w with
  | Abort it => (it_error it, it_delta it, log Ev_abort (it_world it))
  | Goto_cleanup it | Fall_through it => cleanup it
  end.

(** [git_vector_foreach] over the deltas, which are updated in place.  The
    loop ends with the round that is aborted or leaves an error. *)
Fixpoint foreach_deltas (index : nat) (ds : list git_diff_delta) (w : world)
    : Z * list git_diff_delta * world :=
  match ds with
  | [] => (GIT_SUCCESS, [], w)
  | delta :: rest =>
      if skip_delta delta then
        let '(error, rest, w) := foreach_deltas (S index) rest w in
        (error, delta :: rest, w)
      else
        let aborted := round_aborts index delta w in
        let '(error, delta, w) := foreach_round index delta w in
        if aborted || negb (error =? GIT_SUCCESS) then (error, delta :: rest, w)
        else
          let '(error, rest, w) := foreach_deltas (S index) rest w in
          (error, delta :: rest, w)
  end.

End Foreach.

(** Returns the error code, the deltas as the traversal leaves them and the
    final [cb_data] with the trace of what was called.  When the trace ends
    with [Ev_abort] the process was aborted and there is no return: the
    error code and the deltas are then what the variables held. *)
Definition git_diff_foreach (diff : git_diff_list) (data : U)
    (file_cb : option git_diff_file_fn) (hunk_cb : option git_diff_hunk_fn)
    (line_cb : option git_diff_line_fn) : Z * list git_diff_delta * world :=
  foreach_deltas diff file_cb hunk_cb line_cb 0 (deltas diff)
    {| cb_data := data; trace := [] |}.

(** ** [git_diff_blobs]

    [stack] is what the automatic variable [delta] holds on entry; the
    members the function does not assign keep it. *)
Definition git_diff_blobs (r : git_repository)
    (old_blob new_blob : option git_blob) (options : option git_diff_options)
    (data : U) (hunk_cb : option git_diff_hunk_fn)
    (line_cb : option git_diff_line_fn) (stack : git_diff_delta)
    : Z * git_diff_delta * world :=
  let reverse :=
    match options with
    | Some o => has_flag (o_flags o) GIT_DIFF_REVERSE
    | None => false
    end in
  let '(old_blob, new_blob) :=
    if reverse then (new_blob, old_blob) else (old_blob, new_blob) in
  let old :=
    match old_blob with
    | Some b => {| m_data := git_blob_rawcontent b; m_len := git_blob_rawsize b |}
    | None => {| m_data := Some EmptyString; m_len := 0 |}
    end in
  let new :=
    match new_blob with
    | Some b => {| m_data := git_blob_rawcontent b; m_len := git_blob_rawsize b |}
    | None => {| m_data := Some EmptyString; m_len := 0 |}
    end in
  let status :=
    if is_some (m_data old)
    then (if is_some (m_data new) then GIT_DELTA_MODIFIED else GIT_DELTA_DELETED)
    else (if is_some (m_data new) then GIT_DELTA_ADDED else GIT_DELTA_UNTRACKED) in
  let delta :=
    {| d_old := {| f_oid := git_object_id r old_blob; f_path := None;
                   f_mode := 33188; f_size := f_size (d_old stack);
                   f_flags := f_flags (d_old stack) |};
       d_new := {| f_oid := git_object_id r new_blob; f_path := None;
                   f_mode := 33188; f_size := f_size (d_new stack);
                   f_flags := f_flags (d_new stack) |};
       d_status := status;
       d_similarity := 0;
       d_binary := d_binary stack |} in
  let info :=
    {| info_hunk_cb := hunk_cb; info_line_cb := line_cb;
       info_delta := delta |} in
  let '(xdiff_config, xdiff_params) := setup_xdiff_options options in
  let '(_, w) :=
    xdl_diff r old new xdiff_params xdiff_config (diff_output_cb info)
      {| cb_data := data; trace := [] |} in
  (GIT_SUCCESS, delta, w).

End Driver.

Notation "f >>> k" := (and_then f k) (at level 55, left associativity).

(** ** The renderers *)

(** [%s] of a path; the renderers only see the deltas of a diff list, whose
    paths are set. *)
Definition path_text (p : option string) : string :=
  match p with Some s => s | None => EmptyString end.

(** [%.*s]: the bytes of the buffer up to a NUL. *)
Fixpoint text_of (s : string) : string :=
  match s with
  | EmptyString => EmptyString
  | String c rest => if is_nul c then EmptyString else String c (text_of rest)
  end.

(** [%o]. *)
Fixpoint octal_digits (fuel : nat) (n : Z) (acc : string) : string :=
  match fuel with
  | O => acc
  | S k =>
      let acc := String (ascii_of_N (Z.to_N (48 + n mod 8))) acc in
      if n / 8 =? 0 then acc else octal_digits k (n / 8) acc
  end.

Definition format_octal (n : Z) : string :=
  octal_digits (S (Z.to_nat (Z.log2 n))) n EmptyString.

(** Modelled from the spec: [git_oid_to_string] of [oid.c], which is not
    among the sources.  With a buffer of [n] bytes it writes the first
    [n - 1] of the 40 hexadecimal digits of the identity (the spec's
    "7-char" abbreviations for the buffers of 8 bytes). *)
Definition hex_char (d : N) : ascii :=
  if (d <? 10)%N then ascii_of_N (48 + d) else ascii_of_N (87 + d).

Fixpoint hex_digits (oid : git_oid) (pos count : nat) : string :=
  match count with
  | O => EmptyString
  | S k =>
      String (hex_char ((oid / 16 ^ N.of_nat (39 - pos)) mod 16)%N)
        (hex_digits oid (S pos) k)
  end.

Definition git_oid_to_string (n : nat) (oid : git_oid) : string :=
  hex_digits oid 0 (n - 1).

Definition pick_suffix (mode : Z) : ascii :=
  if S_ISDIR mode then "/"%char
  else if has_flag mode 64 then "*"%char
  else " "%char.

Section Renderers.

Context {V : Type}.

Definition git_diff_output_fn := V -> git_diff_line_t -> string -> V * Z.

(** [diff_print_info]; [pi_buf] is the text of the [git_buf], whose
    allocations are taken to succeed ([git_buf_lasterror] is
    [GIT_SUCCESS]). *)
Record diff_print_info := {
  pi_diff : git_diff_list;
  pi_print_cb : git_diff_output_fn;
  pi_cb_data : V;
  pi_buf : string
}.

Definition set_pi_buf (pi : diff_print_info) (buf : string) : diff_print_info :=
  {| pi_diff := pi_diff pi; pi_print_cb := pi_print_cb pi;
     pi_cb_data := pi_cb_data pi; pi_buf := buf |}.

(** [pi->print_cb(pi->cb_data, kind, pi->buf->ptr)]. *)
Definition call_print (pi : diff_print_info) (kind : git_diff_line_t)
    : diff_print_info * Z :=
  let '(data, error) := pi_print_cb pi (pi_cb_data pi) kind (pi_buf pi) in
  ({| pi_diff := pi_diff pi; pi_print_cb := pi_print_cb pi;
      pi_cb_data := data; pi_buf := pi_buf pi |}, error).

(** The [switch] of [print_compact]; the default case leaves NUL. *)
Definition status_code (s : git_delta_t) : ascii :=
  match s with
  | GIT_DELTA_ADDED => "A"
  | GIT_DELTA_DELETED => "D"
  | GIT_DELTA_MODIFIED => "M"
  | GIT_DELTA_RENAMED => "R"
  | GIT_DELTA_COPIED => "C"
  | GIT_DELTA_IGNORED => "I"
  | GIT_DELTA_UNTRACKED => "?"
  | GIT_DELTA_UNMODIFIED => NUL
  end%char.

Definition print_compact (pi : diff_print_info) (delta : git_diff_delta)
    (progress : nat * nat) : diff_print_info * Z :=
  let code := status_code (d_status delta) in
  if is_nul code then (pi, GIT_SUCCESS)
  else
    let old := d_old delta in
    let new := d_new delta in
    let old_suffix := pick_suffix (f_mode old) in
    let new_suffix := pick_suffix (f_mode new) in
    let buf :=
      if negb (same_path (f_path old) (f_path new)) then
        str1 code +++ str1 TAB +++ path_text (f_path old) +++ str1 old_suffix
        +++ " -> " +++ path_text (f_path new) +++ str1 new_suffix +++ str1 LF
      else if negb (f_mode old =? f_mode new)
              && negb (f_mode old =? 0) && negb (f_mode new =? 0) then
        str1 code +++ str1 TAB +++ path_text (f_path old) +++ str1 new_suffix
        +++ " (" +++ format_octal (f_mode old) +++ " -> "
        +++ format_octal (f_mode new) +++ ")" +++ str1 LF
      else if negb (Ascii.eqb old_suffix " "%char) then
        str1 code +++ str1 TAB +++ path_text (f_path old) +++ str1 old_suffix
        +++ str1 LF
      else
        str1 code +++ str1 TAB +++ path_text (f_path old) +++ str1 LF in
    call_print (set_pi_buf pi buf) GIT_DIFF_LINE_FILE_HDR.

(** Appends the index and mode block to the buffer. *)
Definition print_oid_range (pi : diff_print_info) (delta : git_diff_delta)
    : diff_print_info * Z :=
  let start_oid := git_oid_to_string 8 (f_oid (d_old delta)) in
  let end_oid := git_oid_to_string 8 (f_oid (d_new delta)) in
  let old_mode := f_mode (d_old delta) in
  let new_mode := f_mode (d_new delta) in
  let block :=
    if old_mode =? new_mode then
      "index " +++ start_oid +++ ".." +++ end_oid +++ " "
      +++ format_octal old_mode +++ str1 LF
    else
      (if old_mode =? 0 then
         "new file mode " +++ format_octal new_mode +++ str1 LF
       else if new_mode =? 0 then
         "deleted file mode " +++ format_octal old_mode +++ str1 LF
       else
         "old mode " +++ format_octal old_mode +++ str1 LF
         +++ "new mode " +++ format_octal new_mode +++ str1 LF)
      +++ "index " +++ start_oid +++ ".." +++ end_oid +++ str1 LF in
  (set_pi_buf pi (pi_buf pi +++ block), GIT_SUCCESS).

Definition print_patch_file (pi : diff_print_info) (delta : git_diff_delta)
    (progress : nat * nat) : diff_print_info * Z :=
  let oldpfx := o_src_prefix (opts (pi_diff pi)) in
  let oldpath := path_text (f_path (d_old delta)) in
  let newpfx := o_dst_prefix (opts (pi_diff pi)) in
  let newpath := path_text (f_path (d_new delta)) in
  let pi :=
    set_pi_buf pi
      ("diff --git " +++ oldpfx +++ path_text (f_path (d_old delta)) +++ " "
       +++ newpfx +++ path_text (f_path (d_new delta)) +++ str1 LF) in
  let '(pi, error) := print_oid_range pi delta in
  if error <? GIT_SUCCESS then (pi, error)
  else
    let '(oldpfx, oldpath) :=
      if git_oid_iszero (f_oid (d_old delta))
      then (EmptyString, "/dev/null"%string) else (oldpfx, oldpath) in
    let '(oldpfx, oldpath) :=
      if git_oid_iszero (f_oid (d_new delta))
      then (EmptyString, "/dev/null"%string) else (oldpfx, oldpath) in
    let pi :=
      if negb (d_binary delta =? 1) then
        set_pi_buf pi
          (pi_buf pi +++ "--- " +++ oldpfx +++ oldpath +++ str1 LF
           +++ "+++ " +++ newpfx +++ newpath +++ str1 LF)
      else pi in
    let '(pi, error) := call_print pi GIT_DIFF_LINE_FILE_HDR in
    if negb (error =? GIT_SUCCESS) || negb (d_binary delta =? 1)
    then (pi, error)
    else
      let pi :=
        set_pi_buf pi
          ("Binary files " +++ oldpfx +++ oldpath +++ " and "
           +++ newpfx +++ newpath +++ " differ" +++ str1 LF) in
      call_print pi GIT_DIFF_LINE_BINARY.

Definition print_patch_hunk (pi : diff_print_info) (d : git_diff_delta)
    (r : git_diff_range) (header : string) : diff_print_info * Z :=
  call_print (set_pi_buf pi (text_of header)) GIT_DIFF_LINE_HUNK_HDR.

(** The character of an origin, for [%c]; the code prints it for the
    three kinds of content lines only. *)
Definition origin_char (origin : git_diff_line_t) : ascii :=
  match origin with
  | GIT_DIFF_LINE_CONTEXT => " "
  | GIT_DIFF_LINE_ADDITION => "+"
  | GIT_DIFF_LINE_DELETION => "-"
  | GIT_DIFF_LINE_ADD_EOFNL => LF
  | GIT_DIFF_LINE_DEL_EOFNL => NUL
  | GIT_DIFF_LINE_FILE_HDR => "F"
  | GIT_DIFF_LINE_HUNK_HDR => "H"
  | GIT_DIFF_LINE_BINARY => "B"
  end%char.

Definition print_patch_line (pi : diff_print_info) (delta : git_diff_delta)
    (line_origin : git_diff_line_t) (content : string) : diff_print_info * Z :=
  let buf :=
    match line_origin with
    | GIT_DIFF_LINE_ADDITION | GIT_DIFF_LINE_DELETION | GIT_DIFF_LINE_CONTEXT =>
        String (origin_char line_origin) (text_of content)
    | _ => text_of content
    end in
  call_print (set_pi_buf pi buf) line_origin.

Definition git_diff_print_compact (diff : git_diff_list) (data : V)
    (print_cb : git_diff_output_fn) : Z * list git_diff_delta * V :=
  let pi :=
    {| pi_diff := diff; pi_print_cb := print_cb; pi_cb_data := data;
       pi_buf := EmptyString |} in
  let '(error, ds, w) :=
    git_diff_foreach diff pi (Some print_compact) None None in
  (error, ds, pi_cb_data (cb_data w)).

Definition git_diff_print_patch (diff : git_diff_list) (data : V)
    (print_cb : git_diff_output_fn) : Z * list git_diff_delta * V :=
  let pi :=
    {| pi_diff := diff; pi_print_cb := print_cb; pi_cb_data := data;
       pi_buf := EmptyString |} in
  let '(error, ds, w) :=
    git_diff_foreach diff pi (Some print_patch_file) (Some print_patch_hunk)
      (Some print_patch_line) in
  (error, ds, pi_cb_data (cb_data w)).

End Renderers.

(** ** Vocabulary of the statements *)

Fixpoint string_forall (p : ascii -> bool) (s : string) : bool :=
  match s with
  | EmptyString => true
  | String c rest => p c && string_forall p rest
  end.

(** A stretch the scan skips: no digit and no NUL in it. *)
Definition is_separator (s : string) : bool :=
  string_forall (fun c => negb (is_nul c) && negb (isdigit c)) s.


Definition has_digit (s : string) : bool :=
  negb (string_forall (fun c => negb (isdigit c)) s).





(** An optional count behind a number: the comma that announces it, a
    stretch the scan skips and the digit run.  Its text and its value. *)
Definition count := option (string * string).















(** The status code and the suffix character of the compact renderer as
    the claim has them: a letter for every status but unmodified; [/] for
    a directory (the file type bits 0170000 of the mode are 0040000), [*]
    for an executable (the bit 0100 of the mode is set) and a space
    otherwise. *)
Definition compact_letter (s : git_delta_t) : option ascii :=
  match s with
  | GIT_DELTA_UNMODIFIED => None
  | GIT_DELTA_ADDED => Some "A"%char
  | GIT_DELTA_DELETED => Some "D"%char
  | GIT_DELTA_MODIFIED => Some "M"%char
  | GIT_DELTA_RENAMED => Some "R"%char
  | GIT_DELTA_COPIED => Some "C"%char
  | GIT_DELTA_IGNORED => Some "I"%char
  | GIT_DELTA_UNTRACKED => Some "?"%char
  end.

Definition compact_suffix (mode : Z) : ascii :=
  if Z.land mode 61440 =? 16384 then "/"%char
  else if Z.land mode 64 =? 0 then " "%char
  else "*"%char.

(** A hunk or line event on a delta classified as text. *)
Definition text_event (e : event) : Prop :=
  match e with
  | Ev_hunk d _ _ | Ev_line d _ _ => d_binary d = 0
  | _ => True
  end.

(** The values of the binary tri-state. *)
Definition tri_state (b : Z) : Prop := b = -1 \/ b = 0 \/ b = 1.

(** The trace of [w'] continues that of [w] with events that satisfy [P]. *)
Definition grows {U : Type} (P : event -> Prop) (w w' : @world U) : Prop :=
  exists new, trace w' = trace w ++ new /\ Forall P new.

(** Hoare-style bookkeeping for the stages of a round: what relates the
    round's variables at any exit of a stage to those at its entry, and what
    a stage that falls through establishes for the next one. *)
Definition round_rel {U : Type} (it it' : @iteration U) : Prop :=
  grows text_event (it_world it) (it_world it')
  /\ d_status (it_delta it') = d_status (it_delta it).

Definition flow_ok {U : Type} (it0 : @iteration U)
    (Post : @iteration U -> Prop) (f : @flow U) : Prop :=
  round_rel it0 (flow_end f)
  /\ (forall it', f = Fall_through it' -> Post it').

Definition stage_ok {U : Type} (Pre Post : @iteration U -> Prop)
    (stage : @iteration U -> @flow U) : Prop :=
  forall it, Pre it -> flow_ok it Post (stage it).

Definition unresolved_or_resolved {U : Type} (it : @iteration U) : Prop :=
  tri_state (d_binary (it_delta it)).

Definition resolved {U : Type} (it : @iteration U) : Prop :=
  d_binary (it_delta it) = 0 \/ d_binary (it_delta it) = 1.

(** ** Sample data

    A small repository: four one-line blobs, a working directory with two
    files, a "diff" attribute that marks [*.bin] paths as binary, and a
    line diff for one-line files. *)

Definition line (s : string) : string := s +++ str1 LF.

Definition sample_content (oid : git_oid) : string :=
  match oid with
  | 1%N => line "a"
  | 2%N => line "b"
  | 3%N => line "c"
  | 4%N => line "d"
  | _ => EmptyString
  end.

Definition sample_hash (data : string) : git_oid :=
  if String.eqb data (line "a") then 1%N
  else if String.eqb data (line "b") then 2%N
  else if String.eqb data (line "c") then 3%N
  else if String.eqb data (line "d") then 4%N
  else 5%N.

Definition sample_workdir (full_path : string) : string :=
  if String.eqb full_path "/work/same.txt" then line "a"
  else if String.eqb full_path "/work/changed.txt" then line "b"
  else EmptyString.

Definition map_of (content : string) : git_map :=
  {| m_data := Some content; m_len := Z.of_nat (String.length content) |}.

(** A buffer with nothing but a NUL behind it in memory. *)
Definition buffer (bytes : string) : mmbuffer_t :=
  {| ptr := bytes; size := Z.of_nat (String.length bytes) |}.

Definition sample_xdl_units (old new : git_map) (xpp : xpparam_t)
    (xecfg : xdemitconf_t) : list (list mmbuffer_t) :=
  let o := path_text (m_data old) in
  let n := path_text (m_data new) in
  if String.eqb o n then []
  else if String.eqb o EmptyString then
    [[buffer (line "@@ -0,0 +1 @@")]; [buffer "+"; buffer n]]
  else if String.eqb n EmptyString then
    [[buffer (line "@@ -1 +0,0 @@")]; [buffer "-"; buffer o]]
  else
    [[buffer (line "@@ -1 +1 @@")]; [buffer "-"; buffer o];
     [buffer "+"; buffer n]].

Definition ends_with_bin (path : option string) : bool :=
  match path with
  | Some p =>
      String.eqb (substring (String.length p - 4) 4 p) ".bin"
  | None => false
  end.

Definition sample_repo : git_repository :=
  {| git_attr_get := fun path name =>
       (GIT_SUCCESS, if ends_with_bin path then ATTR_FALSE else ATTR_OTHER);
     git_blob_lookup := fun oid =>
       (GIT_SUCCESS,
        {| blob_id := oid;
           git_blob_rawcontent := Some (sample_content oid);
           git_blob_rawsize := Z.of_nat (String.length (sample_content oid)) |});
     git_odb_hash := fun data len => (GIT_SUCCESS, sample_hash (path_text data));
     git_buf_joinpath := fun path => (GIT_SUCCESS, "/work/" +++ path_text path);
     git__malloc := fun _ => true;
     p_readlink := fun _ _ => (0, EmptyString);
     git_futils_mmap_ro_file := fun _ full_path =>
       (GIT_SUCCESS, map_of (sample_workdir full_path));
     xdl_units := sample_xdl_units;
     null_object_id := 0%N;
     size_t_bits := 64 |}.

Definition sample_opts : git_diff_options :=
  {| o_flags := 0; o_context_lines := 3; o_interhunk_lines := 3;
     o_src_prefix := "a/"; o_dst_prefix := "b/" |}.

Definition sample_file (path : string) (oid : git_oid) (mode : Z)
    : git_diff_file :=
  {| f_oid := oid; f_path := Some path; f_mode := mode; f_size := 2;
     f_flags := 0 |}.

Definition sample_delta (status : git_delta_t) (old new : git_diff_file)
    : git_diff_delta :=
  {| d_old := old; d_new := new; d_status := status; d_similarity := 0;
     d_binary := 0 |}.

(** Two modified text files, both sides in the object store. *)
Definition first_delta : git_diff_delta :=
  sample_delta GIT_DELTA_MODIFIED
    (sample_file "one.txt" 1%N 33188) (sample_file "one.txt" 2%N 33188).

Definition second_delta : git_diff_delta :=
  sample_delta GIT_DELTA_MODIFIED
    (sample_file "two.txt" 3%N 33188) (sample_file "two.txt" 4%N 33188).

Definition sample_diff : git_diff_list :=
  {| repo := sample_repo; opts := sample_opts;
     deltas := [first_delta; second_delta];
     old_src := GIT_ITERATOR_TREE; new_src := GIT_ITERATOR_TREE |}.

(** A file of the working directory listed as modified although its
    content is that of the old side; its identity is not known yet. *)
Definition touched_delta : git_diff_delta :=
  sample_delta GIT_DELTA_MODIFIED
    (sample_file "same.txt" 1%N 33188) (sample_file "same.txt" 0%N 33188).

Definition workdir_diff : git_diff_list :=
  {| repo := sample_repo; opts := sample_opts;
     deltas := [touched_delta];
     old_src := GIT_ITERATOR_TREE; new_src := GIT_ITERATOR_WORKDIR |}.

(** A path the attribute system declares binary. *)
Definition binary_delta : git_diff_delta :=
  sample_delta GIT_DELTA_MODIFIED
    (sample_file "logo.bin" 1%N 33188) (sample_file "logo.bin" 2%N 33188).

(** A deleted file, a rename and a mode change. *)
Definition deleted_delta : git_diff_delta :=
  sample_delta GIT_DELTA_DELETED
    (sample_file "gone.txt" 0xabcdef0123456789abcdef0123456789abcdef01%N 33188)
    (sample_file "gone.txt" 0%N 0).

Definition renamed_delta : git_diff_delta :=
  sample_delta GIT_DELTA_RENAMED
    (sample_file "old/path" 1%N 33188) (sample_file "new/path" 1%N 33188).

Definition chmod_delta : git_diff_delta :=
  sample_delta GIT_DELTA_MODIFIED
    (sample_file "path" 1%N 33188) (sample_file "path" 1%N 33261).

(** A directory that was added. *)
Definition tree_delta : git_diff_delta :=
  sample_delta GIT_DELTA_ADDED
    (sample_file "src" 0%N 16384) (sample_file "src" 2%N 16384).

Definition blob_a : git_blob :=
  {| blob_id := 1%N; git_blob_rawcontent := Some (line "a"); git_blob_rawsize := 2 |}.

Definition blob_b : git_blob :=
  {| blob_id := 2%N; git_blob_rawcontent := Some (line "b"); git_blob_rawsize := 2 |}.

(** What the stack may hold where [git_diff_blobs] puts its delta. *)
Definition stale_stack : git_diff_delta :=
  {| d_old := sample_file EmptyString 0%N 0;
     d_new := sample_file EmptyString 0%N 0;
     d_status := GIT_DELTA_UNMODIFIED; d_similarity := 0; d_binary := -1 |}.

(** Callbacks: the caller's data counts the calls. *)
Definition ok_file_cb : @git_diff_file_fn nat :=
  fun n _ _ => (S n, GIT_SUCCESS).
Definition failing_file_cb : @git_diff_file_fn nat :=
  fun n _ _ => (S n, GIT_ERROR).
Definition ok_hunk_cb : @git_diff_hunk_fn nat :=
  fun n _ _ _ => (S n, GIT_SUCCESS).
Definition failing_hunk_cb : @git_diff_hunk_fn nat :=
  fun n _ _ _ => (S n, GIT_ERROR).
Definition ok_line_cb : @git_diff_line_fn nat :=
  fun n _ _ _ => (S n, GIT_SUCCESS).
Definition failing_line_cb : @git_diff_line_fn nat :=
  fun n _ _ _ => (S n, GIT_ERROR).

(** A print callback that keeps what it is given. *)
Definition keep_output : @git_diff_output_fn (list (git_diff_line_t * string)) :=
  fun out kind text => (out ++ [(kind, text)], GIT_SUCCESS).

Definition sample_pi : @diff_print_info (list (git_diff_line_t * string)) :=
  {| pi_diff := sample_diff; pi_print_cb := keep_output; pi_cb_data := [];
     pi_buf := EmptyString |}.

(** What an event is about: the callback and the old path of its delta, or
    the resource released. *)
Definition event_summary (e : event) : string :=
  match e with
  | Ev_file d _ => "file " +++ path_text (f_path (d_old d))
  | Ev_hunk d _ _ => "hunk " +++ path_text (f_path (d_old d))
  | Ev_line d _ content => "line " +++ path_text (f_path (d_old d))
  | Ev_blob_free Old_side => "free old blob"
  | Ev_blob_free New_side => "free new blob"
  | Ev_free Old_side => "free old data"
  | Ev_free New_side => "free new data"
  | Ev_unmap Old_side => "unmap old data"
  | Ev_unmap New_side => "unmap new data"
  | Ev_abort => "abort"
  end.

(** The delta a callback event carries. *)
Definition event_delta (e : event) : option git_diff_delta :=
  match e with
  | Ev_file d _ | Ev_hunk d _ _ | Ev_line d _ _ => Some d
  | _ => None
  end.

Definition is_diff_event (e : event) : bool :=
  match e with
  | Ev_hunk _ _ _ | Ev_line _ _ _ => true
  | _ => false
  end.

Definition hunk_info : @diff_output_info nat :=
  {| info_hunk_cb := Some ok_hunk_cb; info_line_cb := None;
     info_delta := first_delta |}.

Definition line_info : @diff_output_info nat :=
  {| info_hunk_cb := None; info_line_cb := Some ok_line_cb;
     info_delta := first_delta |}.

Definition fresh_world : @world nat := {| cb_data := 0%nat; trace := [] |}.

(** ** Further vocabulary *)

Definition has_nul (s : string) : bool :=
  negb (string_forall (fun c => negb (is_nul c)) s).

(** The first [n] bytes of a buffer. *)
Definition window (n : nat) (s : string) : string := substring 0 n s.

(** A buffer whose length member is the length of its bytes. *)
Definition buffer_of (map : git_map) (s : string) : Prop :=
  m_data map = Some s /\ m_len map = Z.of_nat (String.length s).

Definition undecided (file : git_diff_file) : Prop :=
  Z.land (f_flags file) BINARY_DIFF_FLAGS = 0.

(** The side owns loaded data: one of the two release obligations is
    recorded in its flags. *)
Definition owns_data (file : git_diff_file) : bool :=
  has_flag (f_flags file) GIT_DIFF_FILE_FREE_DATA
  || has_flag (f_flags file) GIT_DIFF_FILE_UNMAP_DATA.

Definition owns_both (file : git_diff_file) : bool :=
  has_flag (f_flags file) GIT_DIFF_FILE_FREE_DATA
  && has_flag (f_flags file) GIT_DIFF_FILE_UNMAP_DATA.

Definition is_callback_event (e : event) : bool :=
  match e with
  | Ev_file _ _ | Ev_hunk _ _ _ | Ev_line _ _ _ => true
  | _ => false
  end.

(** Does [diff_output_cb] have a callback for a unit of this many
    buffers? *)
Definition unit_wanted {U : Type} (info : @diff_output_info U)
    (bufs : list mmbuffer_t) : bool :=
  match List.length bufs with
  | 1%nat => is_some (info_hunk_cb info)
  | 2%nat | 3%nat => is_some (info_line_cb info)
  | _ => false
  end.

(** Stages again, with a condition [Exit] for where a stage jumps to
    [cleanup] and a condition [Post] for where it falls through; no
    assertion fails. *)
Definition flow_inv {U : Type} (Exit Post : @iteration U -> Prop)
    (f : @flow U) : Prop :=
  match f with
  | Goto_cleanup it => Exit it
  | Fall_through it => Post it
  | Abort _ => False
  end.

Definition stage_inv {U : Type} (Pre Exit Post : @iteration U -> Prop)
    (stage : @iteration U -> @flow U) : Prop :=
  forall it, Pre it -> flow_inv Exit Post (stage it).

(** The options with the reverse flag cleared. *)
Definition plain_options (o : git_diff_options) : git_diff_options :=
  {| o_flags := Z.land (o_flags o) (Z.lnot GIT_DIFF_REVERSE);
     o_context_lines := o_context_lines o;
     o_interhunk_lines := o_interhunk_lines o;
     o_src_prefix := o_src_prefix o; o_dst_prefix := o_dst_prefix o |}.

(** ** Further sample data *)

(** A repository whose attribute system fails. *)
Definition broken_attr_repo : git_repository :=
  {| git_attr_get := fun _ _ => (GIT_ERROR, ATTR_OTHER);
     git_blob_lookup := git_blob_lookup sample_repo;
     git_odb_hash := git_odb_hash sample_repo;
     git_buf_joinpath := git_buf_joinpath sample_repo;
     git__malloc := git__malloc sample_repo;
     p_readlink := p_readlink sample_repo;
     git_futils_mmap_ro_file := git_futils_mmap_ro_file sample_repo;
     xdl_units := xdl_units sample_repo;
     null_object_id := null_object_id sample_repo;
     size_t_bits := size_t_bits sample_repo |}.

Definition broken_attr_diff : git_diff_list :=
  {| repo := broken_attr_repo; opts := sample_opts;
     deltas := [first_delta; second_delta];
     old_src := GIT_ITERATOR_TREE; new_src := GIT_ITERATOR_TREE |}.

(** A repository whose object store lacks the blob 3. *)
Definition missing_blob_repo : git_repository :=
  {| git_attr_get := git_attr_get sample_repo;
     git_blob_lookup := fun oid =>
       if (oid =? 3)%N then (GIT_ENOTFOUND, blob_a)
       else git_blob_lookup sample_repo oid;
     git_odb_hash := git_odb_hash sample_repo;
     git_buf_joinpath := git_buf_joinpath sample_repo;
     git__malloc := git__malloc sample_repo;
     p_readlink := p_readlink sample_repo;
     git_futils_mmap_ro_file := git_futils_mmap_ro_file sample_repo;
     xdl_units := xdl_units sample_repo;
     null_object_id := null_object_id sample_repo;
     size_t_bits := size_t_bits sample_repo |}.

Definition third_delta : git_diff_delta :=
  sample_delta GIT_DELTA_MODIFIED
    (sample_file "three.txt" 1%N 33188) (sample_file "three.txt" 4%N 33188).

Definition missing_blob_diff : git_diff_list :=
  {| repo := missing_blob_repo; opts := sample_opts;
     deltas := [first_delta; second_delta; third_delta];
     old_src := GIT_ITERATOR_TREE; new_src := GIT_ITERATOR_TREE |}.

(** A 32-bit platform and a file too large for it. *)
Definition small_repo : git_repository :=
  {| git_attr_get := git_attr_get sample_repo;
     git_blob_lookup := git_blob_lookup sample_repo;
     git_odb_hash := git_odb_hash sample_repo;
     git_buf_joinpath := git_buf_joinpath sample_repo;
     git__malloc := git__malloc sample_repo;
     p_readlink := p_readlink sample_repo;
     git_futils_mmap_ro_file := git_futils_mmap_ro_file sample_repo;
     xdl_units := xdl_units sample_repo;
     null_object_id := null_object_id sample_repo;
     size_t_bits := 32 |}.

Definition force_text_opts : git_diff_options :=
  {| o_flags := GIT_DIFF_FORCE_TEXT; o_context_lines := 0;
     o_interhunk_lines := 0; o_src_prefix := "a/"; o_dst_prefix := "b/" |}.

Definition small_diff : git_diff_list :=
  {| repo := small_repo; opts := force_text_opts;
     deltas := [];
     old_src := GIT_ITERATOR_TREE; new_src := GIT_ITERATOR_TREE |}.

Definition force_text_diff : git_diff_list :=
  {| repo := sample_repo; opts := force_text_opts;
     deltas := [binary_delta];
     old_src := GIT_ITERATOR_TREE; new_src := GIT_ITERATOR_TREE |}.

Definition huge_delta : git_diff_delta :=
  sample_delta GIT_DELTA_MODIFIED
    {| f_oid := 1%N; f_path := Some "huge.iso"%string; f_mode := 33188;
       f_size := 2 ^ 32; f_flags := 0 |}
    (sample_file "huge.iso" 2%N 33188).

(** A symbolic link of the working directory, and a working directory
    whose links read as [target]. *)
Definition link_file : git_diff_file :=
  {| f_oid := 0%N; f_path := Some "link"%string; f_mode := 40960;
     f_size := 6; f_flags := 0 |}.


Definition wide_opts : git_diff_options :=
  {| o_flags := GIT_DIFF_IGNORE_WHITESPACE; o_context_lines := 5;
     o_interhunk_lines := 7; o_src_prefix := "a/"; o_dst_prefix := "b/" |}.

Definition reverse_opts : git_diff_options :=
  {| o_flags := GIT_DIFF_REVERSE; o_context_lines := 3;
     o_interhunk_lines := 3; o_src_prefix := "a/"; o_dst_prefix := "b/" |}.

Definition unmodified_diff : git_diff_list :=
  {| repo := sample_repo; opts := sample_opts;
     deltas :=
       [sample_delta GIT_DELTA_UNMODIFIED
          (sample_file "one.txt" 1%N 33188) (sample_file "one.txt" 1%N 33188);
        sample_delta GIT_DELTA_UNTRACKED
          (sample_file "new.txt" 0%N 0) (sample_file "new.txt" 0%N 33188);
        sample_delta GIT_DELTA_IGNORED
          (sample_file "a.o" 0%N 0) (sample_file "a.o" 0%N 33188)];
     old_src := GIT_ITERATOR_TREE; new_src := GIT_ITERATOR_WORKDIR |}.

(** A run of [n] bytes [x]. *)
Fixpoint padding (n : nat) : string :=
  match n with
  | O => EmptyString
  | S k => String "x"%char (padding k)
  end.

(** What the two sides of the round's delta own: nothing; nothing on the
    new side and at most one kind of data on the old side; at most one kind
    on either side. *)
Definition sides_clean {U : Type} (it : @iteration U) : Prop :=
  owns_data (d_old (it_delta it)) = false
  /\ owns_data (d_new (it_delta it)) = false.

Definition sides_half {U : Type} (it : @iteration U) : Prop :=
  owns_both (d_old (it_delta it)) = false
  /\ owns_data (d_new (it_delta it)) = false.

Definition sides_single {U : Type} (it : @iteration U) : Prop :=
  owns_both (d_old (it_delta it)) = false
  /\ owns_both (d_new (it_delta it)) = false.

(** The two ownership flags of a side are those of another. *)
Definition same_owner (f f' : git_diff_file) : Prop :=
  has_flag (f_flags f') GIT_DIFF_FILE_FREE_DATA
  = has_flag (f_flags f) GIT_DIFF_FILE_FREE_DATA
  /\ has_flag (f_flags f') GIT_DIFF_FILE_UNMAP_DATA
     = has_flag (f_flags f) GIT_DIFF_FILE_UNMAP_DATA.

(** Events that are neither diff output nor the release of a blob. *)
Definition quiet_event (e : event) : Prop :=
  match e with
  | Ev_hunk _ _ _ | Ev_line _ _ _ | Ev_blob_free _ => False
  | _ => True
  end.

Definition no_diff_event (e : event) : Prop := is_diff_event e = false.

Definition no_callback_event (e : event) : Prop :=
  is_callback_event e = false.

(** What two values of the "diff" attribute say about a delta: binary as
    soon as one is false, else text as soon as one is true, else nothing
    (-1). *)
Definition attr_verdict (old new : attr_value) : Z :=
  if GIT_ATTR_FALSE old || GIT_ATTR_FALSE new then 1
  else if GIT_ATTR_TRUE old || GIT_ATTR_TRUE new then 0
  else -1.

(** A file renamed to a path the attribute system declares binary. *)
Definition moved_delta : git_diff_delta :=
  sample_delta GIT_DELTA_RENAMED
    (sample_file "old.txt" 1%N 33188) (sample_file "new.bin" 1%N 33188).
(** * Properties *)

(** ** Strings *)

Lemma append_assoc (s t u : string) : (s +++ t) +++ u = s +++ t +++ u.
Proof. induction s as [|c s IH]; simpl; [reflexivity | now rewrite IH]. Qed.



Lemma is_nul_eq (c : ascii) : is_nul c = true -> c = NUL.
Proof. apply Ascii.eqb_eq. Qed.

(** ** Machine integers and digit runs *)

Lemma wrap_int_small (x : Z) : - 2 ^ 31 <= x < 2 ^ 31 -> wrap_int x = x.
Proof.
  intros Hx. unfold wrap_int.
  rewrite Z.mod_small by lia. lia.
Qed.



Lemma parse_next_number_stop (rest : string) (v digits : Z) :
  isdigit (first_byte rest) = false ->
  parse_next_number rest v digits = (rest, v, digits).
Proof.
  destruct rest as [|c r]; simpl; intros H; [reflexivity | now rewrite H].
Qed.



Lemma find_next_digit_separator (pre s : string) :
  is_separator pre = true -> find_next_digit (pre +++ s) = find_next_digit s.
Proof.
  induction pre as [|c pre IH]; intros H; simpl in *.
  - reflexivity.
  - apply andb_prop in H as [Hc Hpre]. rewrite Hc. now apply IH.
Qed.



Lemma find_next_digit_length (s : string) :
  (String.length (find_next_digit s) <= String.length s)%nat.
Proof.
  induction s as [|c s IH]; cbn [find_next_digit]; [lia|].
  destruct (negb (is_nul c) && negb (isdigit c)); cbn [String.length]; lia.
Qed.





Lemma has_digit_text_of (s : string) :
  has_digit (text_of s) = isdigit (first_byte (find_next_digit s)).
Proof.
  unfold has_digit.
  induction s as [|c s IH]; [reflexivity|].
  cbn [text_of find_next_digit].
  destruct (is_nul c) eqn:Hnul; cbn [negb andb first_byte string_forall].
  - apply is_nul_eq in Hnul. now subst c.
  - destruct (isdigit c) eqn:Hd; cbn [negb andb first_byte string_forall].
    + now rewrite Hd.
    + exact IH.
Qed.


(** ** Hunk headers *)













Section Output_callback.

Context {U : Type}.
Implicit Types (info : @diff_output_info U) (w : @world U) (b : mmbuffer_t).

Lemma call_line_trace (cb : @git_diff_line_fn U) d origin content w :
  trace (snd (call_line cb d origin content w))
  = trace w ++ [Ev_line d origin content].
Proof.
  unfold call_line. now destruct (cb (cb_data w) d origin content).
Qed.

Lemma call_hunk_trace (cb : @git_diff_hunk_fn U) d range header w :
  trace (snd (call_hunk cb d range header w))
  = trace w ++ [Ev_hunk d range header].
Proof.
  unfold call_hunk. now destruct (cb (cb_data w) d range header).
Qed.

Lemma call_file_trace (cb : @git_diff_file_fn U) d progress w :
  trace (snd (call_file cb d progress w)) = trace w ++ [Ev_file d progress].
Proof.
  unfold call_file. now destruct (cb (cb_data w) d progress).
Qed.


Lemma diff_output_cb_no_hunk_cb info b w :
  info_hunk_cb info = None -> diff_output_cb info [b] w = (GIT_SUCCESS, w).
Proof. intros H. unfold diff_output_cb. now rewrite H. Qed.


End Output_callback.




(** ** Line events *)

Section Line_events.

Context {U : Type}.
Implicit Types (info : @diff_output_info U) (w : @world U).

(** A three-part deletion line: the marker goes out as
    deletion-without-eol. *)
Lemma deletion_line_eof_marker info line_cb (b0 b1 b2 : mmbuffer_t) w :
  info_line_cb info = Some line_cb ->
  first_byte (ptr b0) = "-"%char ->
  fst (call_line line_cb (info_delta info) GIT_DIFF_LINE_DELETION
         (buffer_bytes b1) w)
  = GIT_SUCCESS ->
  diff_output_cb info [b0; b1; b2] w
  = call_line line_cb (info_delta info) GIT_DIFF_LINE_DEL_EOFNL
      (buffer_bytes b2)
      (snd (call_line line_cb (info_delta info) GIT_DIFF_LINE_DELETION
              (buffer_bytes b1) w)).
Proof.
  intros Hcb Hminus Hok. unfold diff_output_cb. rewrite Hcb, Hminus.
  cbn [Ascii.eqb Bool.eqb].
  destruct (call_line line_cb (info_delta info) GIT_DIFF_LINE_DELETION
              (buffer_bytes b1) w)
    as [err w'].
  cbn [fst snd] in *. now rewrite Hok.
Qed.

End Line_events.

(** C10: a three-part line event whose first byte is neither [+] nor [-]
    goes out as a context line and, once that callback has succeeded, its
    marker goes out with the origin deletion-without-eol, the one a
    deletion line gets. *)
Theorem context_line_eof_marker (U : Type) (info : @diff_output_info U)
    (line_cb : @git_diff_line_fn U) (b0 b1 b2 : mmbuffer_t) (w : @world U) :
  info_line_cb info = Some line_cb ->
  first_byte (ptr b0) <> "+"%char -> first_byte (ptr b0) <> "-"%char ->
  fst (call_line line_cb (info_delta info) GIT_DIFF_LINE_CONTEXT
         (buffer_bytes b1) w)
  = GIT_SUCCESS ->
  diff_output_cb info [b0; b1; b2] w
  = call_line line_cb (info_delta info) GIT_DIFF_LINE_DEL_EOFNL
      (buffer_bytes b2)
      (snd (call_line line_cb (info_delta info) GIT_DIFF_LINE_CONTEXT
              (buffer_bytes b1) w))
  /\ trace (snd (diff_output_cb info [b0; b1; b2] w))
     = trace w
       ++ [Ev_line (info_delta info) GIT_DIFF_LINE_CONTEXT (buffer_bytes b1);
           Ev_line (info_delta info) GIT_DIFF_LINE_DEL_EOFNL (buffer_bytes b2)].
Proof.
  intros Hcb Hplus Hminus Hok.
  assert (Heq : diff_output_cb info [b0; b1; b2] w
    = call_line line_cb (info_delta info) GIT_DIFF_LINE_DEL_EOFNL
        (buffer_bytes b2)
        (snd (call_line line_cb (info_delta info) GIT_DIFF_LINE_CONTEXT
                (buffer_bytes b1) w))).
  { unfold diff_output_cb. rewrite Hcb.
    apply Ascii.eqb_neq in Hplus, Hminus. rewrite Hplus, Hminus.
    destruct (call_line line_cb (info_delta info) GIT_DIFF_LINE_CONTEXT
                (buffer_bytes b1) w)
      as [err w'].
    cbn [fst snd] in *. now rewrite Hok. }
  split; [exact Heq|].
  rewrite Heq, !call_line_trace, <- app_assoc. reflexivity.
Qed.

Lemma context_line_eof_marker_witness :
  trace (snd (diff_output_cb line_info
                [buffer " "; buffer "end";
                 buffer "\ No newline at end of file"]
                fresh_world))
  = [Ev_line first_delta GIT_DIFF_LINE_CONTEXT "end";
     Ev_line first_delta GIT_DIFF_LINE_DEL_EOFNL "\ No newline at end of file"].
Proof.
  apply (context_line_eof_marker nat line_info ok_line_cb (buffer " ")
           (buffer "end") (buffer "\ No newline at end of file") fresh_world);
    [reflexivity | discriminate | discriminate | reflexivity].
Defined.

(** ** Headers that do not parse *)




(** ** The compact renderer *)

Section Renderer_facts.

Context {V : Type}.
Implicit Types (pi : @diff_print_info V).

Lemma call_print_buf pi kind : pi_buf (fst (call_print pi kind)) = pi_buf pi.
Proof.
  unfold call_print.
  now destruct (pi_print_cb pi (pi_cb_data pi) kind (pi_buf pi)).
Qed.

(** A delta without a status letter prints nothing. *)
Lemma print_compact_unmodified pi delta progress :
  d_status delta = GIT_DELTA_UNMODIFIED ->
  print_compact pi delta progress = (pi, GIT_SUCCESS).
Proof. intros H. unfold print_compact. now rewrite H. Qed.

End Renderer_facts.

Lemma pick_suffix_compact (mode : Z) : pick_suffix mode = compact_suffix mode.
Proof.
  unfold pick_suffix, compact_suffix, has_flag, S_ISDIR.
  destruct (Z.land mode 61440 =? 16384); [reflexivity|].
  now destruct (Z.land mode 64 =? 0).
Qed.

Lemma status_code_compact (s : git_delta_t) (c : ascii) :
  compact_letter s = Some c -> status_code s = c /\ is_nul c = false.
Proof. destruct s; cbn; intros [= <-]; now split. Qed.

(** C9, as the code has it: for a delta that is not unmodified the compact
    renderer hands one line to the print callback: the letter of the status
    (A, D, M, R, C, I or ?), a tab and the old path, then, when the paths
    differ, the old side's suffix character, [ -> ], the new path and the
    new side's suffix character; else, when the modes differ and both are
    nonzero, the new side's suffix character and the two modes in octal in
    parentheses; else the old side's suffix character unless it is the
    space.  The suffix character is [/] for a directory, [*] for an
    executable and a space otherwise, and the first two forms print it also
    when it is the space.  An unmodified delta prints nothing. *)
Theorem print_compact_line (V : Type) (pi : @diff_print_info V)
    (delta : git_diff_delta) (progress : nat * nat) :
  (compact_letter (d_status delta) = None ->
   print_compact pi delta progress = (pi, GIT_SUCCESS))
  /\ (forall letter : ascii,
        compact_letter (d_status delta) = Some letter ->
        let old := d_old delta in
        let new := d_new delta in
        let head := str1 letter +++ str1 TAB +++ path_text (f_path old) in
        let printed := pi_buf (fst (print_compact pi delta progress)) in
        print_compact pi delta progress
        = call_print (set_pi_buf pi printed) GIT_DIFF_LINE_FILE_HDR
        /\ (same_path (f_path old) (f_path new) = false ->
            printed
            = head +++ str1 (compact_suffix (f_mode old)) +++ " -> "
              +++ path_text (f_path new) +++ str1 (compact_suffix (f_mode new))
              +++ str1 LF)
        /\ (same_path (f_path old) (f_path new) = true ->
            f_mode old <> f_mode new -> f_mode old <> 0 -> f_mode new <> 0 ->
            printed
            = head +++ str1 (compact_suffix (f_mode new)) +++ " ("
              +++ format_octal (f_mode old) +++ " -> "
              +++ format_octal (f_mode new) +++ ")" +++ str1 LF)
        /\ (same_path (f_path old) (f_path new) = true ->
            f_mode old = f_mode new \/ f_mode old = 0 \/ f_mode new = 0 ->
            printed
            = head
              +++ (if Ascii.eqb (compact_suffix (f_mode old)) " "%char
                   then EmptyString
                   else str1 (compact_suffix (f_mode old)))
              +++ str1 LF)).
Proof.
  split.
  { intros Hnone. apply print_compact_unmodified.
    now destruct (d_status delta). }
  intros letter Hletter old new head printed.
  destruct (status_code_compact _ _ Hletter) as [Hcode Hnul].
  subst printed head. unfold print_compact. rewrite Hcode, Hnul.
  fold old new. rewrite call_print_buf, !pick_suffix_compact.
  cbn [set_pi_buf pi_buf].
  split.
  { reflexivity. }
  split.
  { intros ->. cbn [negb]. now rewrite !append_assoc. }
  split.
  { intros -> Hne Ho Hn. cbn [negb].
    apply Z.eqb_neq in Hne, Ho, Hn. rewrite Hne, Ho, Hn. cbn [negb andb].
    now rewrite !append_assoc. }
  intros -> Hmodes. cbn [negb].
  replace (negb (f_mode old =? f_mode new) && negb (f_mode old =? 0)
           && negb (f_mode new =? 0)) with false.
  2:{ symmetry. destruct Hmodes as [H | [H | H]]; rewrite H.
      - now rewrite Z.eqb_refl.
      - cbn [Z.eqb negb]. now rewrite andb_false_r.
      - cbn [Z.eqb negb]. now rewrite andb_false_r. }
  destruct (Ascii.eqb (compact_suffix (f_mode old)) " "%char); cbn [negb];
    now rewrite !append_assoc.
Qed.

Lemma print_compact_line_witness :
  pi_buf (fst (print_compact sample_pi chmod_delta (0%nat, 2%nat)))
  = "M" +++ str1 TAB +++ line "path* (100644 -> 100755)"
  /\ pi_buf (fst (print_compact sample_pi renamed_delta (0%nat, 2%nat)))
     = "R" +++ str1 TAB +++ line "old/path  -> new/path "
  /\ pi_buf (fst (print_compact sample_pi first_delta (0%nat, 2%nat)))
     = "M" +++ str1 TAB +++ line "one.txt"
  /\ pi_buf (fst (print_compact sample_pi tree_delta (0%nat, 2%nat)))
     = "A" +++ str1 TAB +++ line "src/".
Proof.
  split; [|split; [|split]].
  - apply (proj2 (print_compact_line _ sample_pi chmod_delta (0%nat, 2%nat))
             "M"%char);
      [reflexivity | reflexivity | discriminate ..].
  - apply (proj2 (print_compact_line _ sample_pi renamed_delta (0%nat, 2%nat))
             "R"%char);
      reflexivity.
  - apply (proj2 (print_compact_line _ sample_pi first_delta (0%nat, 2%nat))
             "M"%char);
      [reflexivity | reflexivity | now left].
  - apply (proj2 (print_compact_line _ sample_pi tree_delta (0%nat, 2%nat))
             "A"%char);
      [reflexivity | reflexivity | now left].
Defined.

(** C9 as stated fails on its own example: a rename between two regular
    files prints the space that stands for "no suffix" behind both paths. *)
Lemma print_compact_rename_counterexample :
  pi_buf (fst (print_compact sample_pi renamed_delta (0%nat, 2%nat)))
  = "R" +++ str1 TAB +++ line "old/path  -> new/path "
  /\ pi_buf (fst (print_compact sample_pi renamed_delta (0%nat, 2%nat)))
     <> "R" +++ str1 TAB +++ line "old/path -> new/path"
  /\ pi_buf (fst (print_compact sample_pi renamed_delta (0%nat, 2%nat)))
     <> "R" +++ str1 TAB +++ "old/path -> new/path".
Proof.
  split; [reflexivity|]. split; vm_compute; discriminate.
Qed.

(** ** The patch renderer *)

(** C4 at a deleted file (old identity present, new identity absent): the
    code prints [/dev/null] for the old side and the prefixed path for the
    new side, where the claim has them the other way round. *)
Theorem print_patch_file_deleted :
  pi_cb_data (fst (print_patch_file sample_pi deleted_delta (0%nat, 1%nat)))
  = [(GIT_DIFF_LINE_FILE_HDR,
      line "diff --git a/gone.txt b/gone.txt"
      +++ line "deleted file mode 100644"
      +++ line "index abcdef0..0000000"
      +++ line "--- /dev/null"
      +++ line "+++ b/gone.txt")].
Proof. reflexivity. Qed.

(** The new side never renders as [/dev/null]: whatever the identities, the
    [+++] line of a text delta carries the destination prefix and the new
    path. *)
Lemma print_patch_file_new_side (V : Type) (pi : @diff_print_info V)
    (delta : git_diff_delta) (progress : nat * nat) :
  d_binary delta <> 1 ->
  exists before,
    pi_buf (fst (print_patch_file pi delta progress))
    = before +++ "+++ " +++ o_dst_prefix (opts (pi_diff pi))
      +++ path_text (f_path (d_new delta)) +++ str1 LF.
Proof.
  intros Hbin. apply Z.eqb_neq in Hbin.
  unfold print_patch_file, print_oid_range.
  cbn [GIT_SUCCESS Z.ltb Z.compare set_pi_buf pi_buf pi_diff].
  rewrite Hbin. cbn [negb orb].
  destruct (git_oid_iszero (f_oid (d_old delta)));
    destruct (git_oid_iszero (f_oid (d_new delta)));
    match goal with
    | |- context [call_print ?p ?k] =>
        destruct (call_print p k) as [pi' err] eqn:Hcall;
        assert (Hbuf : pi_buf pi' = pi_buf p)
          by (rewrite <- (call_print_buf p k), Hcall; reflexivity)
    end;
    rewrite orb_true_r; cbn [fst]; rewrite Hbuf;
    cbn [set_pi_buf pi_buf];
    eexists; rewrite <- !append_assoc; reflexivity.
Qed.

(** The two renderers on the sample diff. *)
Example git_diff_print_compact_sample :
  let '(error, _, out) := git_diff_print_compact sample_diff [] keep_output in
  error = GIT_SUCCESS
  /\ out = [(GIT_DIFF_LINE_FILE_HDR, "M" +++ str1 TAB +++ line "one.txt");
            (GIT_DIFF_LINE_FILE_HDR, "M" +++ str1 TAB +++ line "two.txt")].
Proof. vm_compute. split; reflexivity. Qed.

Example git_diff_print_patch_sample :
  let '(error, _, out) := git_diff_print_patch sample_diff [] keep_output in
  error = GIT_SUCCESS
  /\ out = [(GIT_DIFF_LINE_FILE_HDR,
             line "diff --git a/one.txt b/one.txt"
             +++ line "index 0000000..0000000 100644"
             +++ line "--- a/one.txt" +++ line "+++ b/one.txt");
            (GIT_DIFF_LINE_HUNK_HDR, line "@@ -1 +1 @@");
            (GIT_DIFF_LINE_DELETION, line "-a");
            (GIT_DIFF_LINE_ADDITION, line "+b");
            (GIT_DIFF_LINE_FILE_HDR,
             line "diff --git a/two.txt b/two.txt"
             +++ line "index 0000000..0000000 100644"
             +++ line "--- a/two.txt" +++ line "+++ b/two.txt");
            (GIT_DIFF_LINE_HUNK_HDR, line "@@ -1 +1 @@");
            (GIT_DIFF_LINE_DELETION, line "-c");
            (GIT_DIFF_LINE_ADDITION, line "+d")].
Proof. vm_compute. split; reflexivity. Qed.

(** ** The attribute phase of the classifier *)

Lemma set_delta_is_binary_old (delta : git_diff_delta) :
  d_old (set_delta_is_binary delta) = d_old delta.
Proof.
  unfold set_delta_is_binary.
  repeat match goal with |- context [if ?b then _ else _] => destruct b end;
    reflexivity.
Qed.

Lemma set_delta_is_binary_new (delta : git_diff_delta) :
  d_new (set_delta_is_binary delta) = d_new delta.
Proof.
  unfold set_delta_is_binary.
  repeat match goal with |- context [if ?b then _ else _] => destruct b end;
    reflexivity.
Qed.

(** With one path on both sides the new side gets the bits that it had
    already and that the old side has now: it gains none. *)
Lemma mirror_new_flags (diff : git_diff_list) (delta : git_diff_delta) :
  size_overflows (repo diff) (f_size (d_old delta)) = false ->
  size_overflows (repo diff) (f_size (d_new delta)) = false ->
  has_flag (o_flags (opts diff)) GIT_DIFF_FORCE_TEXT = false ->
  same_path (f_path (d_new delta)) (f_path (d_old delta)) = true ->
  fst (set_file_is_binary_by_attr (repo diff) (d_old delta)) = GIT_SUCCESS ->
  f_flags (d_new (snd (file_is_binary_by_attr diff delta)))
  = Z.land (f_flags (d_new delta))
      (Z.land
         (f_flags (snd (set_file_is_binary_by_attr (repo diff) (d_old delta))))
         BINARY_DIFF_FLAGS).
Proof.
  intros Ho Hn Hforce Hsame Hattr. unfold file_is_binary_by_attr.
  cbn [set_d_binary d_old d_new f_size]. rewrite Ho, Hn, Hforce. cbn [orb].
  destruct (set_file_is_binary_by_attr (repo diff) (d_old delta))
    as [error old] eqn:Hold.
  cbn [fst snd] in *. subst error.
  cbn [GIT_SUCCESS Z.eqb negb set_d_old set_d_binary set_d_new d_new d_old].
  assert (Hpath : f_path old = f_path (d_old delta)).
  { unfold set_file_is_binary_by_attr in Hold.
    destruct (git_attr_get (repo diff) (f_path (d_old delta)) "diff")
      as [e v].
    destruct (negb (e =? GIT_SUCCESS)), (GIT_ATTR_FALSE v), (GIT_ATTR_TRUE v);
      injection Hold as _ <-; reflexivity. }
  rewrite Hpath, Hsame. cbn [snd].
  now rewrite set_delta_is_binary_new.
Qed.

(** C5 at a path the attribute system declares binary, the same on both
    sides: the old side gets the binary flag, the new side ends without it,
    although its own query would set it. *)
Theorem mirror_new_drops_binary_flag :
  fst (file_is_binary_by_attr sample_diff binary_delta) = GIT_SUCCESS
  /\ f_flags (d_old (snd (file_is_binary_by_attr sample_diff binary_delta)))
     = GIT_DIFF_FILE_BINARY
  /\ f_flags (d_new (snd (file_is_binary_by_attr sample_diff binary_delta)))
     = 0
  /\ f_flags (snd (set_file_is_binary_by_attr sample_repo (d_new binary_delta)))
     = GIT_DIFF_FILE_BINARY.
Proof. vm_compute. repeat split. Qed.

(** ** The pairwise blob diff *)

Section Blob_diff.

Context {U : Type}.

(** Blobs whose content pointer is set give a modified delta, present or
    not: an absent blob is given the empty string, which is not NULL. *)
Lemma git_diff_blobs_modified (r : git_repository)
    (old_blob new_blob : option git_blob) (options : option git_diff_options)
    (data : U) hunk_cb line_cb (stack : git_diff_delta) :
  (forall b, old_blob = Some b -> git_blob_rawcontent b <> None) ->
  (forall b, new_blob = Some b -> git_blob_rawcontent b <> None) ->
  d_status (snd (fst (git_diff_blobs r old_blob new_blob options data
                        hunk_cb line_cb stack)))
  = GIT_DELTA_MODIFIED.
Proof.
  intros Hold Hnew. unfold git_diff_blobs.
  assert (Hsome : forall b : option git_blob,
            (forall x, b = Some x -> git_blob_rawcontent x <> None) ->
            is_some (m_data match b with
                            | Some x => {| m_data := git_blob_rawcontent x;
                                           m_len := git_blob_rawsize x |}
                            | None => {| m_data := Some EmptyString; m_len := 0 |}
                            end) = true).
  { intros [x|] H; [|reflexivity]. cbn [m_data].
    specialize (H x eq_refl). now destruct (git_blob_rawcontent x). }
  destruct (match options with
            | Some o => has_flag (o_flags o) GIT_DIFF_REVERSE
            | None => false
            end);
    rewrite (Hsome old_blob Hold), (Hsome new_blob Hnew);
    destruct (setup_xdiff_options options) as [xdiff_config xdiff_params];
    match goal with
    | |- context [xdl_diff ?a ?b ?c ?d ?e ?f ?g] =>
        destruct (xdl_diff a b c d e f g)
    end; reflexivity.
Qed.

(** The binary tri-state of the delta is whatever the stack held. *)
Lemma git_diff_blobs_binary (r : git_repository)
    (old_blob new_blob : option git_blob) (options : option git_diff_options)
    (data : U) hunk_cb line_cb (stack : git_diff_delta) :
  d_binary (snd (fst (git_diff_blobs r old_blob new_blob options data
                        hunk_cb line_cb stack)))
  = d_binary stack.
Proof.
  unfold git_diff_blobs.
  destruct (match options with
            | Some o => has_flag (o_flags o) GIT_DIFF_REVERSE
            | None => false
            end);
    destruct (setup_xdiff_options options) as [xdiff_config xdiff_params];
    match goal with
    | |- context [xdl_diff ?a ?b ?c ?d ?e ?f ?g] =>
        destruct (xdl_diff a b c d e f g)
    end; reflexivity.
Qed.

(** Whatever the callbacks return, the blob diff returns success. *)
Lemma git_diff_blobs_success (r : git_repository)
    (old_blob new_blob : option git_blob) (options : option git_diff_options)
    (data : U) hunk_cb line_cb (stack : git_diff_delta) :
  fst (fst (git_diff_blobs r old_blob new_blob options data
              hunk_cb line_cb stack))
  = GIT_SUCCESS.
Proof.
  unfold git_diff_blobs.
  destruct (match options with
            | Some o => has_flag (o_flags o) GIT_DIFF_REVERSE
            | None => false
            end);
    destruct (setup_xdiff_options options) as [xdiff_config xdiff_params];
    match goal with
    | |- context [xdl_diff ?a ?b ?c ?d ?e ?f ?g] =>
        destruct (xdl_diff a b c d e f g)
    end; reflexivity.
Qed.

End Blob_diff.

(** C3 at the three inputs with an absent blob: the delta is modified each
    time, where the claim has added, deleted and untracked. *)
Theorem git_diff_blobs_absent_status :
  d_status (snd (fst (git_diff_blobs sample_repo None (Some blob_b) None
                        0%nat (Some ok_hunk_cb) (Some ok_line_cb) stale_stack)))
  = GIT_DELTA_MODIFIED
  /\ d_status (snd (fst (git_diff_blobs sample_repo (Some blob_a) None None
                           0%nat (Some ok_hunk_cb) (Some ok_line_cb) stale_stack)))
     = GIT_DELTA_MODIFIED
  /\ d_status (snd (fst (git_diff_blobs sample_repo None None None
                           0%nat (Some ok_hunk_cb) (Some ok_line_cb) stale_stack)))
     = GIT_DELTA_MODIFIED.
Proof. vm_compute. repeat split. Qed.

(** C7 at two blobs that differ: the hunk and the two lines reach their
    callbacks with a delta whose binary tri-state is the unresolved -1 the
    stack happened to hold. *)
Theorem git_diff_blobs_binary_unresolved :
  map (fun e => option_map d_binary (event_delta e))
    (trace (snd (git_diff_blobs sample_repo (Some blob_a) (Some blob_b) None
                   0%nat (Some ok_hunk_cb) (Some ok_line_cb) stale_stack)))
  = [Some (-1); Some (-1); Some (-1)]
  /\ map event_summary
       (trace (snd (git_diff_blobs sample_repo (Some blob_a) (Some blob_b) None
                      0%nat (Some ok_hunk_cb) (Some ok_line_cb) stale_stack)))
     = ["hunk "%string; "line "%string; "line "%string].
Proof. vm_compute. split; reflexivity. Qed.

(** ** The driver: errors of the hunk and line callbacks *)

Section Driver_facts.

Context {U : Type}.
Implicit Types (it : @iteration U) (w : @world U).

(** The line diff stops at the first callback that fails. *)
Lemma xdl_emit_abort outf bufs rest w err w' :
  outf bufs w = (err, w') -> err <> GIT_SUCCESS ->
  xdl_emit outf (bufs :: rest) w = (-1, w').
Proof.
  intros Hout Herr. cbn [xdl_emit]. rewrite Hout.
  apply Z.eqb_neq in Herr. now rewrite Herr.
Qed.

(** The driver does not look at what the line diff returns: the round's
    error is after the diff what it was before. *)
Lemma stage_diff_keeps_error diff hunk_cb line_cb it :
  it_error (flow_end (stage_diff diff hunk_cb line_cb it)) = it_error it.
Proof.
  unfold stage_diff.
  destruct (d_binary (it_delta it) =? 1); [reflexivity|].
  destruct ((m_len (it_old_data it) =? 0) && (m_len (it_new_data it) =? 0));
    [reflexivity|].
  destruct (negb (is_some hunk_cb || is_some line_cb)); [reflexivity|].
  destruct (setup_xdiff_options (Some (opts diff)))
    as [xdiff_config xdiff_params].
  match goal with
  | |- context [xdl_diff ?a ?b ?c ?d ?e ?f ?g] =>
      destruct (xdl_diff a b c d e f g)
  end.
  reflexivity.
Qed.

(** The guard [(flags | GIT_DIFF_FILE_VALID_OID) == 0] never holds, so the
    content is never hashed and no delta is ever reclassified. *)
Lemma reconcile_oid_dead diff it : reconcile_oid diff it = Fall_through it.
Proof.
  unfold reconcile_oid.
  destruct (Z.lor (f_flags (d_new (it_delta it))) GIT_DIFF_FILE_VALID_OID =? 0)
    eqn:H; [|reflexivity].
  apply Z.eqb_eq, Z.lor_eq_0_iff in H. destruct H as [_ H]. discriminate H.
Qed.

End Driver_facts.

(** C1 at two modified files: a hunk callback that fails on the first delta
    is called again for the second one, a line callback that fails on the
    first line of the first delta is called again for the second delta, and
    both traversals, like the blob diff, return success. *)
Theorem callback_error_not_propagated :
  (let '(error, _, w) :=
     git_diff_foreach sample_diff 0%nat None (Some failing_hunk_cb)
       (Some ok_line_cb) in
   error = GIT_SUCCESS
   /\ map event_summary (trace w)
      = ["hunk one.txt"; "free old blob"; "free new blob";
         "hunk two.txt"; "free old blob"; "free new blob"]%string)
  /\ (let '(error, _, w) :=
        git_diff_foreach sample_diff 0%nat None (Some ok_hunk_cb)
          (Some failing_line_cb) in
      error = GIT_SUCCESS
      /\ map event_summary (trace w)
         = ["hunk one.txt"; "line one.txt"; "free old blob"; "free new blob";
            "hunk two.txt"; "line two.txt"; "free old blob"; "free new blob"
           ]%string)
  /\ (let '(error, _, w) :=
        git_diff_blobs sample_repo (Some blob_a) (Some blob_b) None 0%nat
          (Some failing_hunk_cb) (Some ok_line_cb) stale_stack in
      error = GIT_SUCCESS
      /\ map event_summary (trace w) = ["hunk "%string]).
Proof. vm_compute. repeat split. Qed.

(** By contrast a failing file callback does stop the traversal. *)
Lemma file_callback_error_propagated :
  let '(error, _, w) :=
    git_diff_foreach sample_diff 0%nat (Some failing_file_cb)
      (Some ok_hunk_cb) (Some ok_line_cb) in
  error = GIT_ERROR
  /\ map event_summary (trace w)
     = ["file one.txt"; "free old blob"; "free new blob"]%string.
Proof. vm_compute. repeat split. Qed.

(** ** The driver: identities that are not known yet *)

(** C2 at a file of the working directory whose new identity is absent and
    whose loaded content hashes to the old identity: the delta stays
    modified, its new identity stays absent and the file callback is
    called. *)
Theorem unchanged_content_not_reclassified :
  snd (git_odb_hash sample_repo (Some (sample_workdir "/work/same.txt")) 2)
  = f_oid (d_old touched_delta)
  /\ (let '(error, ds, w) :=
        git_diff_foreach workdir_diff 0%nat (Some ok_file_cb)
          (Some ok_hunk_cb) (Some ok_line_cb) in
      error = GIT_SUCCESS
      /\ map d_status ds = [GIT_DELTA_MODIFIED]
      /\ map (fun d => f_oid (d_new d)) ds = [0%N]
      /\ map event_summary (trace w)
         = ["file same.txt"; "free old blob"; "unmap new data"]%string).
Proof. vm_compute. repeat split. Qed.

(** ** The driver: what the callbacks see *)

Lemma has_flag_set (flags bit : Z) :
  bit <> 0 -> has_flag (Z.lor flags bit) bit = true.
Proof.
  intros Hbit. unfold has_flag. apply negb_true_iff, Z.eqb_neq.
  rewrite Z.land_lor_distr_l, Z.land_diag. intros H.
  apply Z.lor_eq_0_iff in H. tauto.
Qed.

Lemma has_binary_flags (flags : Z) :
  Z.land flags BINARY_DIFF_FLAGS <> 0 ->
  has_flag flags GIT_DIFF_FILE_BINARY
  || has_flag flags GIT_DIFF_FILE_NOT_BINARY = true.
Proof.
  unfold BINARY_DIFF_FLAGS, has_flag. intros H.
  rewrite Z.land_lor_distr_r in H.
  destruct (Z.land flags GIT_DIFF_FILE_BINARY =? 0) eqn:H1;
    [|reflexivity].
  destruct (Z.land flags GIT_DIFF_FILE_NOT_BINARY =? 0) eqn:H2;
    [|reflexivity].
  apply Z.eqb_eq in H1, H2. rewrite H1, H2 in H. now elim H.
Qed.

Lemma sniff_side_decides (file : git_diff_file) (map : git_map) :
  has_flag (f_flags (sniff_side file map)) GIT_DIFF_FILE_BINARY
  || has_flag (f_flags (sniff_side file map)) GIT_DIFF_FILE_NOT_BINARY = true.
Proof.
  unfold sniff_side.
  destruct (Z.land (f_flags file) BINARY_DIFF_FLAGS =? 0) eqn:H.
  - destruct (negb (strnlen (m_data map) (Z.min (m_len map) 4000)
                    =? Z.min (m_len map) 4000));
      cbn [or_flag set_f_flags f_flags];
      rewrite has_flag_set by discriminate;
      [reflexivity | apply orb_true_r].
  - apply has_binary_flags. now apply Z.eqb_neq.
Qed.

Lemma set_delta_is_binary_status (delta : git_diff_delta) :
  d_status (set_delta_is_binary delta) = d_status delta.
Proof.
  unfold set_delta_is_binary.
  repeat match goal with |- context [if ?b then _ else _] => destruct b end;
    reflexivity.
Qed.

Lemma set_delta_is_binary_value (delta : git_diff_delta) :
  d_binary (set_delta_is_binary delta) = 1
  \/ d_binary (set_delta_is_binary delta) = 0
  \/ d_binary (set_delta_is_binary delta) = d_binary delta.
Proof.
  unfold set_delta_is_binary.
  repeat match goal with |- context [if ?b then _ else _] => destruct b end;
    cbn [set_d_binary d_binary]; auto.
Qed.

(** The attribute phase leaves the tri-state at one of its three values and
    the status alone. *)
Lemma file_is_binary_by_attr_spec (diff : git_diff_list)
    (delta : git_diff_delta) :
  tri_state (d_binary (snd (file_is_binary_by_attr diff delta)))
  /\ d_status (snd (file_is_binary_by_attr diff delta)) = d_status delta.
Proof.
  unfold file_is_binary_by_attr, tri_state.
  destruct (size_overflows _ _ || size_overflows _ _); [cbn; auto|].
  destruct (has_flag _ _); [cbn; auto|].
  destruct (set_file_is_binary_by_attr _ _) as [error old].
  destruct (negb (error =? GIT_SUCCESS)); [cbn; auto|].
  destruct (same_path _ _);
    [|destruct (set_file_is_binary_by_attr _ _) as [error' new]];
    cbn [snd];
    match goal with
    | |- context [set_delta_is_binary ?d] =>
        pose proof (set_delta_is_binary_value d) as Hv;
        rewrite (set_delta_is_binary_status d)
    end;
    cbn [set_d_new set_d_old set_d_binary d_binary d_status] in *;
    intuition.
Qed.

(** The content phase resolves the tri-state. *)
Lemma file_is_binary_by_content_spec (delta : git_diff_delta)
    (old_data new_data : git_map) :
  (d_binary (snd (file_is_binary_by_content delta old_data new_data)) = 0
   \/ d_binary (snd (file_is_binary_by_content delta old_data new_data)) = 1)
  /\ d_status (snd (file_is_binary_by_content delta old_data new_data))
     = d_status delta
  /\ fst (file_is_binary_by_content delta old_data new_data) = GIT_SUCCESS.
Proof.
  unfold file_is_binary_by_content. cbn [fst snd].
  rewrite set_delta_is_binary_status. cbn [set_d_new set_d_old d_status].
  split; [|now split].
  unfold set_delta_is_binary. cbn [set_d_new set_d_old d_old d_new].
  pose proof (sniff_side_decides (d_old delta) old_data) as H.
  destruct (has_flag (f_flags (sniff_side (d_old delta) old_data))
              GIT_DIFF_FILE_BINARY); cbn [orb]; [now right|].
  cbn [orb] in H. rewrite H.
  destruct (has_flag (f_flags (sniff_side (d_new delta) new_data))
              GIT_DIFF_FILE_BINARY); cbn [orb]; [now right | now left].
Qed.

Section Round.

Context {U : Type}.
Implicit Types (it : @iteration U) (w : @world U) (f : @flow U).

Lemma grows_refl P w : grows P w w.
Proof. exists []. now rewrite app_nil_r. Qed.

Lemma grows_trans P w1 w2 w3 : grows P w1 w2 -> grows P w2 w3 -> grows P w1 w3.
Proof.
  intros (n1 & H1 & F1) (n2 & H2 & F2). exists (n1 ++ n2). split.
  - now rewrite H2, H1, app_assoc.
  - now apply Forall_app.
Qed.

Lemma grows_log (P : event -> Prop) e w : P e -> grows P w (log e w).
Proof. intros H. exists [e]. split; [reflexivity | now constructor]. Qed.

Lemma round_rel_refl it : round_rel it it.
Proof. split; [apply grows_refl | reflexivity]. Qed.

Lemma round_rel_trans it1 it2 it3 :
  round_rel it1 it2 -> round_rel it2 it3 -> round_rel it1 it3.
Proof.
  intros [G1 S1] [G2 S2]. split; [eapply grows_trans; eassumption | congruence].
Qed.

(** Sequencing: the rule for [>>>]. *)
Lemma flow_ok_then it0 (Q R : @iteration U -> Prop) f stage :
  flow_ok it0 Q f -> stage_ok Q R stage -> flow_ok it0 R (f >>> stage).
Proof.
  intros [Hrel Hpost] Hstage.
  destruct f as [it | it | it]; cbn [and_then flow_end] in *.
  - split; [exact Hrel | discriminate].
  - destruct (Hstage it (Hpost it eq_refl)) as [Hrel' Hpost'].
    split; [eapply round_rel_trans; eassumption | exact Hpost'].
  - split; [exact Hrel | discriminate].
Qed.

(** A stage that leaves the world alone and keeps the status. *)
Lemma quiet_stage it f (Post : @iteration U -> Prop) :
  it_world (flow_end f) = it_world it ->
  d_status (it_delta (flow_end f)) = d_status (it_delta it) ->
  (forall it', f = Fall_through it' -> Post it') ->
  flow_ok it Post f.
Proof.
  intros Hw Hs Hpost. split; [|exact Hpost].
  split; [rewrite Hw; apply grows_refl | exact Hs].
Qed.

Section Stages.

Variable diff : git_diff_list.
Variable file_cb : option (@git_diff_file_fn U).
Variable hunk_cb : option (@git_diff_hunk_fn U).
Variable line_cb : option (@git_diff_line_fn U).

Lemma stage_classify_ok :
  stage_ok (U:=U) (fun _ => True) unresolved_or_resolved (stage_classify diff).
Proof.
  intros it _. unfold stage_classify.
  destruct (file_is_binary_by_attr_spec diff (it_delta it)) as [Htri Hst].
  destruct (file_is_binary_by_attr diff (it_delta it)) as [error delta].
  cbn [snd] in *.
  destruct (error <? GIT_SUCCESS); apply quiet_stage; try reflexivity;
    try exact Hst; try discriminate.
  intros it' [= <-]. exact Htri.
Qed.

Lemma stage_load_old_ok :
  stage_ok (U:=U) unresolved_or_resolved unresolved_or_resolved
    (stage_load_old diff hunk_cb line_cb).
Proof.
  intros it Htri. unfold stage_load_old.
  destruct (_ && _ && _); [|apply quiet_stage; try reflexivity;
                             now intros it' [= <-]].
  destruct (old_src diff);
    [destruct (get_blob_content _ _ _ _) as [[error map] blob] ..
    |destruct (get_workdir_content _ _ _) as [[error file] map]];
    cbv zeta; cbn [it_error set_it_old set_it_new set_it_error set_it_delta];
    destruct (negb (error =? GIT_SUCCESS));
    apply quiet_stage; try reflexivity; try discriminate;
    intros it' [= <-]; exact Htri.
Qed.

Lemma stage_load_new_ok :
  stage_ok (U:=U) unresolved_or_resolved unresolved_or_resolved
    (stage_load_new diff hunk_cb line_cb).
Proof.
  intros it Htri. unfold stage_load_new.
  destruct (_ && _ && _); [|apply quiet_stage; try reflexivity;
                             now intros it' [= <-]].
  destruct (new_src diff);
    [destruct (get_blob_content _ _ _ _) as [[error map] blob] ..
    |destruct (get_workdir_content _ _ _) as [[error file] map]];
    cbv zeta; cbn [it_error set_it_old set_it_new set_it_error set_it_delta];
    rewrite ?reconcile_oid_dead;
    destruct (negb (error =? GIT_SUCCESS));
    apply quiet_stage; try reflexivity; try discriminate;
    intros it' [= <-]; exact Htri.
Qed.

Lemma stage_sniff_ok :
  stage_ok unresolved_or_resolved resolved (@stage_sniff U).
Proof.
  intros it Htri. unfold stage_sniff.
  destruct (d_binary (it_delta it) =? -1) eqn:Hb.
  - destruct (file_is_binary_by_content_spec (it_delta it) (it_old_data it)
                (it_new_data it)) as (Hres & Hst & Herr).
    destruct (file_is_binary_by_content _ _ _) as [error delta].
    cbn [fst snd] in *.
    destruct (error <? GIT_SUCCESS); apply quiet_stage; try reflexivity;
      try exact Hst; try discriminate.
    intros it' [= <-]. exact Hres.
  - apply quiet_stage; try reflexivity. intros it' [= <-].
    apply Z.eqb_neq in Hb. unfold resolved.
    destruct Htri as [H | [H | H]]; [contradiction | now left | now right].
Qed.

Lemma stage_file_cb_ok index :
  stage_ok (U:=U) resolved resolved (stage_file_cb diff file_cb index).
Proof.
  intros it Hres. unfold stage_file_cb.
  destruct file_cb as [cb|];
    [|apply quiet_stage; try reflexivity; now intros it' [= <-]].
  pose proof (call_file_trace cb (it_delta it)
                (index, List.length (deltas diff)) (it_world it)) as Htrace.
  destruct (call_file cb _ _ _) as [error w]. cbn [snd] in Htrace.
  assert (Hgrows : grows text_event (it_world it) w)
    by (eexists; split; [exact Htrace | now repeat constructor]).
  destruct (negb (error =? GIT_SUCCESS)); split;
    try (split; [exact Hgrows | reflexivity]); try discriminate.
  intros it' [= <-]. exact Hres.
Qed.

(** Every event the output callback logs is a hunk or line event on the
    delta of its [info]. *)
Lemma diff_output_cb_grows (info : @diff_output_info U) bufs w :
  grows (fun e => is_diff_event e = true
                  /\ event_delta e = Some (info_delta info))
    w (snd (diff_output_cb info bufs w)).
Proof.
  assert (Hline : forall cb origin content w0,
    grows (fun e => is_diff_event e = true
                    /\ event_delta e = Some (info_delta info))
      w0 (snd (call_line cb (info_delta info) origin content w0))).
  { intros. eexists. split; [apply call_line_trace | now repeat constructor]. }
  unfold diff_output_cb.
  destruct bufs as [|b0 [|b1 tl]]; try apply grows_refl.
  - destruct (info_hunk_cb info) as [cb|]; [|apply grows_refl].
    destruct (Ascii.eqb _ _); [|apply grows_refl].
    destruct (scan_hunk_header (ptr b0)) as [err range].
    destruct (_ && _ && _); [|apply grows_refl].
    eexists. split; [apply call_hunk_trace | now repeat constructor].
  - destruct (info_line_cb info) as [cb|];
      [|destruct tl as [|? [|]]; apply grows_refl].
    destruct tl as [|b2 [|]]; try apply grows_refl.
    + match goal with
      | |- context [call_line cb ?d ?o ?c w] =>
          specialize (Hline cb o c w) as H1;
          destruct (call_line cb d o c w) as [err w1]
      end.
      exact H1.
    + match goal with
      | |- context [call_line cb ?d ?o (buffer_bytes b1) w] =>
          specialize (Hline cb o (buffer_bytes b1) w) as H1;
          destruct (call_line cb d o (buffer_bytes b1) w) as [err w1]
      end.
      cbn [snd] in H1.
      destruct (err =? GIT_SUCCESS); [|exact H1].
      eapply grows_trans; [exact H1 | apply Hline].
Qed.

Lemma xdl_emit_grows (info : @diff_output_info U) units :
  forall w,
    grows (fun e => is_diff_event e = true
                    /\ event_delta e = Some (info_delta info))
      w (snd (xdl_emit (diff_output_cb info) units w)).
Proof.
  induction units as [|bufs rest IH]; intros w; cbn [xdl_emit].
  - apply grows_refl.
  - pose proof (diff_output_cb_grows info bufs w) as H.
    destruct (diff_output_cb info bufs w) as [err w1]. cbn [snd] in H.
    destruct (negb (err =? GIT_SUCCESS)); [exact H|].
    eapply grows_trans; [exact H | apply IH].
Qed.

Lemma stage_diff_ok :
  stage_ok (U:=U) resolved (fun _ => True) (stage_diff diff hunk_cb line_cb).
Proof.
  intros it Hres. unfold stage_diff.
  destruct (d_binary (it_delta it) =? 1) eqn:Hbin;
    [apply quiet_stage; try reflexivity; discriminate|].
  destruct (_ && _); [apply quiet_stage; try reflexivity; discriminate|].
  destruct (negb _); [apply quiet_stage; try reflexivity; discriminate|].
  destruct (setup_xdiff_options (Some (opts diff)))
    as [xdiff_config xdiff_params].
  unfold xdl_diff.
  match goal with
  | |- context [xdl_emit (diff_output_cb ?info) ?units ?w] =>
      pose proof (xdl_emit_grows info units w) as H;
      destruct (xdl_emit (diff_output_cb info) units w) as [err w1]
  end.
  cbn [snd info_delta] in H.
  split; [|trivial]. split; [|reflexivity]. cbn [flow_end set_it_world it_world].
  destruct H as (new & Htrace & Hall). exists new. split; [exact Htrace|].
  apply Z.eqb_neq in Hbin.
  assert (Htext : d_binary (it_delta it) = 0)
    by (destruct Hres; [assumption | contradiction]).
  eapply Forall_impl; [|exact Hall].
  intros e [Hkind Hdelta]. destruct e; try discriminate;
    cbn [event_delta] in Hdelta; injection Hdelta as ->; exact Htext.
Qed.

Lemma release_content_grows s file map blob w :
  grows text_event w (snd (release_content s file map blob w)).
Proof.
  unfold release_content.
  assert (H : grows text_event w
                match blob with Some _ => log (Ev_blob_free s) w | None => w end)
    by (destruct blob; [now apply grows_log | apply grows_refl]).
  destruct (has_flag _ GIT_DIFF_FILE_FREE_DATA);
    [|destruct (has_flag _ GIT_DIFF_FILE_UNMAP_DATA)]; cbn [snd];
    try (eapply grows_trans; [exact H | now apply grows_log]).
  exact H.
Qed.

Lemma cleanup_spec it :
  grows text_event (it_world it) (snd (cleanup it))
  /\ d_status (snd (fst (cleanup it))) = d_status (it_delta it).
Proof.
  unfold cleanup.
  pose proof (release_content_grows Old_side (d_old (it_delta it))
                (it_old_data it) (it_old_blob it) (it_world it)) as H1.
  destruct (release_content Old_side _ _ _ _) as [[old m1] w1]. cbn [snd] in H1.
  pose proof (release_content_grows New_side (d_new (it_delta it))
                (it_new_data it) (it_new_blob it) w1) as H2.
  destruct (release_content New_side _ _ _ _) as [[new m2] w2]. cbn [snd] in H2.
  split; [eapply grows_trans; eassumption | reflexivity].
Qed.

(** One round: the hunk and line callbacks only see a delta resolved to
    text, and the status of the delta is not touched. *)
Lemma foreach_round_spec index delta w :
  grows text_event w
    (snd (foreach_round diff file_cb hunk_cb line_cb index delta w))
  /\ d_status (snd (fst (foreach_round diff file_cb hunk_cb line_cb index
                           delta w)))
     = d_status delta.
Proof.
  assert (H : flow_ok
                {| it_error := GIT_SUCCESS; it_delta := delta;
                   it_old_data := empty_map; it_new_data := empty_map;
                   it_old_blob := None; it_new_blob := None; it_world := w |}
                (fun _ => True)
                (round_flow diff file_cb hunk_cb line_cb index delta w)).
  { unfold round_flow.
    eapply flow_ok_then; [|apply stage_diff_ok].
    eapply flow_ok_then; [|apply stage_file_cb_ok].
    eapply flow_ok_then; [|apply stage_sniff_ok].
    eapply flow_ok_then; [|apply stage_load_new_ok].
    eapply flow_ok_then; [|apply stage_load_old_ok].
    now apply stage_classify_ok. }
  destruct H as [[Hgrows Hstatus] _]. cbn [it_world it_delta] in *.
  unfold foreach_round.
  destruct (round_flow diff file_cb hunk_cb line_cb index delta w)
    as [it | it | it]; cbn [flow_end fst snd] in *;
    try (destruct (cleanup_spec it) as [Hc Hs];
         split; [eapply grows_trans; eassumption | congruence]).
  split; [|exact Hstatus].
  eapply grows_trans; [exact Hgrows | now apply grows_log].
Qed.

Lemma foreach_deltas_spec ds :
  forall index w,
    grows text_event w
      (snd (foreach_deltas diff file_cb hunk_cb line_cb index ds w))
    /\ map d_status
         (snd (fst (foreach_deltas diff file_cb hunk_cb line_cb index ds w)))
       = map d_status ds.
Proof.
  induction ds as [|delta rest IH]; intros index w; cbn [foreach_deltas].
  - split; [apply grows_refl | reflexivity].
  - destruct (skip_delta diff delta).
    + destruct (IH (S index) w) as [Hg Hs].
      destruct (foreach_deltas _ _ _ _ _ rest w) as [[error rest'] w'].
      cbn [fst snd map] in *. split; [exact Hg | now rewrite Hs].
    + destruct (foreach_round_spec index delta w) as [Hg1 Hs1].
      destruct (foreach_round _ _ _ _ index delta w) as [[error delta'] w1].
      cbn [fst snd] in *.
      destruct (round_aborts _ _ _ _ index delta w || negb (error =? GIT_SUCCESS)).
      * cbn [fst snd map]. split; [exact Hg1 | now rewrite Hs1].
      * destruct (IH (S index) w1) as [Hg Hs].
        destruct (foreach_deltas _ _ _ _ _ rest w1) as [[error' rest'] w'].
        cbn [fst snd map] in *.
        split; [eapply grows_trans; eassumption | now rewrite Hs1, Hs].
Qed.

End Stages.

(** X21: in a traversal, every hunk and every line callback sees a delta
    whose tri-state is resolved (to text). *)
Lemma foreach_binary_resolved (diff : git_diff_list) (data : U)
    file_cb hunk_cb line_cb :
  Forall text_event
    (trace (snd (git_diff_foreach diff data file_cb hunk_cb line_cb))).
Proof.
  unfold git_diff_foreach.
  destruct (foreach_deltas_spec diff file_cb hunk_cb line_cb (deltas diff) 0
              {| cb_data := data; trace := [] |}) as [(new & Ht & Hall) _].
  rewrite Ht. exact Hall.
Qed.

(** A traversal never changes the status of a delta. *)
Lemma foreach_keeps_status (diff : git_diff_list) (data : U)
    file_cb hunk_cb line_cb :
  map d_status
    (snd (fst (git_diff_foreach diff data file_cb hunk_cb line_cb)))
  = map d_status (deltas diff).
Proof.
  unfold git_diff_foreach.
  apply (foreach_deltas_spec diff file_cb hunk_cb line_cb (deltas diff) 0).
Qed.

End Round.

(** * Further properties *)

(** ** [read_next_int] at the end of the string *)

(** X1: [read_next_int] never scans past a NUL: behind a stretch without
    digits it stops on the NUL, whatever follows it, and fails with the
    not-found error and the value 0. *)
Theorem read_next_int_stops_at_nul (pre rest : string) :
  is_separator pre = true ->
  read_next_int (pre +++ String NUL rest)
  = (String NUL rest, 0, GIT_ENOTFOUND).
Proof.
  intros Hpre. unfold read_next_int.
  rewrite find_next_digit_separator by assumption.
  reflexivity.
Qed.

Lemma read_next_int_stops_at_nul_witness :
  read_next_int ("@@ -" +++ String NUL "12,3 +4 @@")
  = (String NUL "12,3 +4 @@", 0, GIT_ENOTFOUND).
Proof.
  apply (read_next_int_stops_at_nul "@@ -" "12,3 +4 @@"). reflexivity.
Defined.

Lemma parse_next_number_count (s : string) :
  forall v digits,
    0 <= digits -> digits + Z.of_nat (String.length s) < 2 ^ 31 ->
    digits <= snd (parse_next_number s v digits)
    /\ (isdigit (first_byte s) = true ->
        digits < snd (parse_next_number s v digits)).
Proof.
  induction s as [|c s IH]; intros v digits Hd Hlen;
    cbn [parse_next_number first_byte].
  - cbn [snd]. split; [lia | discriminate].
  - cbn [String.length] in Hlen. destruct (isdigit c).
    + rewrite (wrap_int_small (digits + 1)) by lia.
      destruct (IH (wrap_int (wrap_int (v * 10) + (char_code c - 48)))
                  (digits + 1)) as [Hle _]; [lia | lia |].
      split; [lia | intros _; lia].
    + cbn [snd]. split; [lia | discriminate].
Qed.

(** X2: on a string shorter than 2^31 bytes [read_next_int] succeeds
    exactly when there is a digit before the first NUL, and it fails with
    the not-found error exactly when there is none. *)
Theorem read_next_int_succeeds_iff (s : string) :
  Z.of_nat (String.length s) < 2 ^ 31 ->
  (snd (read_next_int s) = GIT_SUCCESS <-> has_digit (text_of s) = true)
  /\ (snd (read_next_int s) = GIT_ENOTFOUND
      <-> has_digit (text_of s) = false).
Proof.
  intros Hlen. rewrite has_digit_text_of. unfold read_next_int.
  pose proof (find_next_digit_length s) as Hshort.
  destruct (parse_next_number_count (find_next_digit s) 0 0) as [Hle Hlt];
    [lia | lia |].
  destruct (parse_next_number (find_next_digit s) 0 0) as [[scan v] digits]
    eqn:Hparse.
  cbn [snd] in *.
  destruct (isdigit (first_byte (find_next_digit s))) eqn:Hd.
  - specialize (Hlt eq_refl).
    replace (0 <? digits) with true by (symmetry; apply Z.ltb_lt; lia).
    split; split; try discriminate; reflexivity.
  - rewrite parse_next_number_stop in Hparse by assumption.
    injection Hparse as _ _ <-. cbn.
    split; split; try discriminate; reflexivity.
Qed.

Lemma read_next_int_succeeds_iff_witness :
  snd (read_next_int "@@ -7 +9 @@") = GIT_SUCCESS
  /\ snd (read_next_int ("@@ " +++ String NUL "7")) = GIT_ENOTFOUND.
Proof.
  split.
  - apply (read_next_int_succeeds_iff "@@ -7 +9 @@");
      vm_compute; reflexivity.
  - apply (read_next_int_succeeds_iff ("@@ " +++ String NUL "7"));
      vm_compute; reflexivity.
Defined.

(** ** Line events and units without a callback *)

(** X3: when the callback for the content of a three-part line event
    fails, the event ends there: the marker is not delivered and the
    output callback returns what it returns for the two-part event. *)
Theorem line_event_failure_skips_marker (U : Type)
    (info : @diff_output_info U) (b0 b1 b2 : mmbuffer_t) (w : @world U) :
  fst (diff_output_cb info [b0; b1] w) <> GIT_SUCCESS ->
  diff_output_cb info [b0; b1; b2] w = diff_output_cb info [b0; b1] w.
Proof.
  unfold diff_output_cb. destruct (info_line_cb info) as [cb|];
    [|reflexivity].
  match goal with
  | |- context [call_line cb ?d ?o ?c w] =>
      destruct (call_line cb d o c w) as [err w1]
  end.
  cbn [fst]. intros Herr. apply Z.eqb_neq in Herr. now rewrite Herr.
Qed.

Lemma line_event_failure_skips_marker_witness :
  diff_output_cb
    {| info_hunk_cb := None; info_line_cb := Some failing_line_cb;
       info_delta := first_delta |}
    [buffer "-"; buffer "end"; buffer "\ No newline at end of file"]
    fresh_world
  = (GIT_ERROR,
     {| cb_data := 1%nat;
        trace := [Ev_line first_delta GIT_DIFF_LINE_DELETION "end"] |}).
Proof.
  rewrite line_event_failure_skips_marker; [reflexivity | discriminate].
Defined.

(** X4: a three-part addition: the content goes out as an addition and,
    once that callback has succeeded, the marker as addition-without-eol;
    the result is that of the second callback. *)
Theorem addition_line_eof_marker (U : Type) (info : @diff_output_info U)
    (line_cb : @git_diff_line_fn U) (b0 b1 b2 : mmbuffer_t) (w : @world U) :
  info_line_cb info = Some line_cb ->
  first_byte (ptr b0) = "+"%char ->
  fst (call_line line_cb (info_delta info) GIT_DIFF_LINE_ADDITION
         (buffer_bytes b1) w)
  = GIT_SUCCESS ->
  diff_output_cb info [b0; b1; b2] w
  = call_line line_cb (info_delta info) GIT_DIFF_LINE_ADD_EOFNL
      (buffer_bytes b2)
      (snd (call_line line_cb (info_delta info) GIT_DIFF_LINE_ADDITION
              (buffer_bytes b1) w))
  /\ trace (snd (diff_output_cb info [b0; b1; b2] w))
     = trace w
       ++ [Ev_line (info_delta info) GIT_DIFF_LINE_ADDITION (buffer_bytes b1);
           Ev_line (info_delta info) GIT_DIFF_LINE_ADD_EOFNL (buffer_bytes b2)].
Proof.
  intros Hcb Hplus Hok.
  assert (Heq : diff_output_cb info [b0; b1; b2] w
    = call_line line_cb (info_delta info) GIT_DIFF_LINE_ADD_EOFNL
        (buffer_bytes b2)
        (snd (call_line line_cb (info_delta info) GIT_DIFF_LINE_ADDITION
                (buffer_bytes b1) w))).
  { unfold diff_output_cb. rewrite Hcb, Hplus. cbn [Ascii.eqb Bool.eqb].
    destruct (call_line line_cb (info_delta info) GIT_DIFF_LINE_ADDITION
                (buffer_bytes b1) w)
      as [err w'].
    cbn [fst snd] in *. now rewrite Hok. }
  split; [exact Heq|].
  rewrite Heq, !call_line_trace, <- app_assoc. reflexivity.
Qed.

Lemma addition_line_eof_marker_witness :
  trace (snd (diff_output_cb line_info
                [buffer "+"; buffer "end";
                 buffer "\ No newline at end of file"] fresh_world))
  = [Ev_line first_delta GIT_DIFF_LINE_ADDITION "end";
     Ev_line first_delta GIT_DIFF_LINE_ADD_EOFNL "\ No newline at end of file"].
Proof.
  apply (addition_line_eof_marker nat line_info ok_line_cb (buffer "+")
           (buffer "end") (buffer "\ No newline at end of file") fresh_world);
    reflexivity.
Defined.

(** X5: a unit for which there is no callback (a header without a hunk
    callback, a line without a line callback, no buffer at all or more than
    three) is passed over: nothing is called and the result is success. *)
Theorem unit_without_callback (U : Type) (info : @diff_output_info U)
    (bufs : list mmbuffer_t) (w : @world U) :
  unit_wanted info bufs = false ->
  diff_output_cb info bufs w = (GIT_SUCCESS, w).
Proof.
  unfold unit_wanted, diff_output_cb.
  destruct bufs as [|b0 [|b1 [|b2 [|b3 tl]]]]; cbn [List.length];
    try reflexivity.
  - destruct (info_hunk_cb info); [discriminate | reflexivity].
  - destruct (info_line_cb info); [discriminate | reflexivity].
  - destruct (info_line_cb info); [discriminate | reflexivity].
Qed.

Lemma unit_without_callback_witness :
  diff_output_cb line_info [buffer "@@ -1 +1 @@"] fresh_world
  = (GIT_SUCCESS, fresh_world)
  /\ diff_output_cb hunk_info [buffer "-"; buffer "a"] fresh_world
     = (GIT_SUCCESS, fresh_world)
  /\ diff_output_cb line_info
       [buffer "-"; buffer "a"; buffer "b"; buffer "c"] fresh_world
     = (GIT_SUCCESS, fresh_world).
Proof.
  split; [|split]; apply unit_without_callback; reflexivity.
Defined.

(** ** The content sniff *)

Lemma has_nul_cons (c : ascii) (s : string) :
  has_nul (String c s) = is_nul c || has_nul s.
Proof.
  unfold has_nul. cbn [string_forall]. now destruct (is_nul c).
Qed.

Lemma window_cons (n : nat) (c : ascii) (s : string) :
  window (S n) (String c s) = String c (window n s).
Proof. reflexivity. Qed.

Lemma window_short (s : string) :
  forall n, window n s = window (Nat.min n (String.length s)) s.
Proof.
  induction s as [|c s IH]; intros [|n]; try reflexivity.
  cbn [String.length Nat.min]. rewrite !window_cons. now rewrite <- IH.
Qed.

(** [strnlen] reaches its bound exactly when no NUL lies before it. *)
Lemma strnlen_bytes_window (s : string) :
  forall n, (n <= String.length s)%nat ->
    (strnlen_bytes s n =? Z.of_nat n) = negb (has_nul (window n s)).
Proof.
  induction s as [|c s IH]; intros [|n] Hn; try reflexivity.
  - cbn [String.length] in Hn. lia.
  - cbn [String.length] in Hn. rewrite window_cons, has_nul_cons.
    cbn [strnlen_bytes]. destruct (is_nul c); cbn [orb].
    + apply Z.eqb_neq. lia.
    + rewrite <- IH by lia.
      destruct (Z.eqb_spec (strnlen_bytes s n) (Z.of_nat n));
        [apply Z.eqb_eq | apply Z.eqb_neq]; lia.
Qed.

Lemma sniff_side_window (file : git_diff_file) (map : git_map) (s : string)
    (n : nat) :
  Z.of_nat n = 4000 ->
  undecided file -> buffer_of map s ->
  sniff_side file map
  = or_flag file (if has_nul (window n s) then GIT_DIFF_FILE_BINARY
                  else GIT_DIFF_FILE_NOT_BINARY).
Proof.
  intros Hn Hund [Hdata Hlen]. unfold sniff_side, undecided in *.
  rewrite Hund, Hdata, Hlen. cbn [Z.eqb strnlen].
  rewrite <- Hn, <- Nat2Z.inj_min, Nat2Z.id.
  rewrite strnlen_bytes_window by lia.
  rewrite (window_short s n), (Nat.min_comm n).
  now destruct (has_nul _).
Qed.

Lemma undecided_flags (file : git_diff_file) :
  undecided file ->
  Z.land (f_flags file) GIT_DIFF_FILE_BINARY = 0
  /\ Z.land (f_flags file) GIT_DIFF_FILE_NOT_BINARY = 0.
Proof.
  unfold undecided, BINARY_DIFF_FLAGS. rewrite Z.land_lor_distr_r.
  intros H. now apply Z.lor_eq_0_iff in H.
Qed.

Lemma has_flag_decided (file : git_diff_file) (binary : bool) :
  undecided file ->
  has_flag (f_flags (or_flag file (if binary then GIT_DIFF_FILE_BINARY
                                   else GIT_DIFF_FILE_NOT_BINARY)))
    GIT_DIFF_FILE_BINARY = binary
  /\ has_flag (f_flags (or_flag file (if binary then GIT_DIFF_FILE_BINARY
                                      else GIT_DIFF_FILE_NOT_BINARY)))
       GIT_DIFF_FILE_NOT_BINARY = negb binary.
Proof.
  intros Hund. destruct (undecided_flags file Hund) as [Hb Hn].
  unfold has_flag. cbn [or_flag set_f_flags f_flags].
  destruct binary; rewrite !Z.land_lor_distr_l, ?Hb, ?Hn; now split.
Qed.

(** X6: the content sniff of a delta neither side of which is decided yet:
    the delta is binary exactly when one of the two buffers has a NUL among
    its first 4000 bytes, and text otherwise. *)
Theorem content_sniff_verdict (delta : git_diff_delta)
    (old_data new_data : git_map) (old_bytes new_bytes : string) :
  undecided (d_old delta) -> undecided (d_new delta) ->
  buffer_of old_data old_bytes -> buffer_of new_data new_bytes ->
  d_binary (snd (file_is_binary_by_content delta old_data new_data))
  = if has_nul (window 4000 old_bytes) || has_nul (window 4000 new_bytes)
    then 1 else 0.
Proof.
  intros Ho Hn Hbo Hbn.
  assert (H4000 : Z.of_nat 4000 = 4000) by (vm_compute; reflexivity).
  unfold file_is_binary_by_content, set_delta_is_binary.
  cbn [snd set_d_old set_d_new d_old d_new].
  rewrite (sniff_side_window _ _ _ 4000 H4000 Ho Hbo).
  rewrite (sniff_side_window _ _ _ 4000 H4000 Hn Hbn).
  generalize (has_nul (window 4000 old_bytes)) as bo.
  generalize (has_nul (window 4000 new_bytes)) as bn.
  intros bn bo.
  destruct (has_flag_decided (d_old delta) bo Ho) as [-> ->].
  destruct (has_flag_decided (d_new delta) bn Hn) as [-> ->].
  now destruct bo, bn.
Qed.

Lemma content_sniff_verdict_witness :
  d_binary (snd (file_is_binary_by_content first_delta
                   (map_of (line "a"))
                   (map_of ("b" +++ String NUL "c"))))
  = 1.
Proof.
  apply (content_sniff_verdict first_delta (map_of (line "a"))
           (map_of ("b" +++ String NUL "c")) (line "a")
           ("b" +++ String NUL "c"));
    try reflexivity; split; reflexivity.
Defined.

(** X7: the sniff only looks at the first 4000 bytes: buffers that agree on
    them are classified alike, whatever follows. *)
Theorem content_sniff_window (delta : git_diff_delta)
    (old_data new_data old_data' new_data' : git_map)
    (old_bytes new_bytes old_bytes' new_bytes' : string) :
  undecided (d_old delta) -> undecided (d_new delta) ->
  buffer_of old_data old_bytes -> buffer_of new_data new_bytes ->
  buffer_of old_data' old_bytes' -> buffer_of new_data' new_bytes' ->
  window 4000 old_bytes = window 4000 old_bytes' ->
  window 4000 new_bytes = window 4000 new_bytes' ->
  file_is_binary_by_content delta old_data new_data
  = file_is_binary_by_content delta old_data' new_data'.
Proof.
  intros Ho Hn Hbo Hbn Hbo' Hbn' Hwo Hwn.
  assert (H4000 : Z.of_nat 4000 = 4000) by (vm_compute; reflexivity).
  unfold file_is_binary_by_content.
  rewrite (sniff_side_window _ _ _ 4000 H4000 Ho Hbo).
  rewrite (sniff_side_window _ _ _ 4000 H4000 Ho Hbo').
  cbn [set_d_old d_new].
  rewrite (sniff_side_window _ _ _ 4000 H4000 Hn Hbn).
  rewrite (sniff_side_window _ _ _ 4000 H4000 Hn Hbn').
  now rewrite Hwo, Hwn.
Qed.

Lemma content_sniff_window_witness :
  file_is_binary_by_content first_delta (map_of (line "a"))
    (map_of (padding 4000 +++ String NUL "b"))
  = file_is_binary_by_content first_delta (map_of (line "a"))
      (map_of (padding 4000 +++ "c")).
Proof.
  apply (content_sniff_window first_delta _ _ _ _ (line "a")
           (padding 4000 +++ String NUL "b") (line "a")
           (padding 4000 +++ "c"));
    first [vm_compute; reflexivity | split; vm_compute; reflexivity].
Defined.

(** ** The guards of the attribute phase *)

(** X8: the two guards of the classifier come before the attributes.  A
    declared size that does not fit [size_t], on either side, makes the
    delta binary and flags both sides binary, even when text is forced;
    otherwise the force-text option makes it text and flags both sides
    not-binary.  Either way the result is success. *)
Theorem classifier_guards (diff : git_diff_list) (delta : git_diff_delta) :
  (size_overflows (repo diff) (f_size (d_old delta))
   || size_overflows (repo diff) (f_size (d_new delta)) = true ->
   fst (file_is_binary_by_attr diff delta) = GIT_SUCCESS
   /\ d_binary (snd (file_is_binary_by_attr diff delta)) = 1
   /\ f_flags (d_old (snd (file_is_binary_by_attr diff delta)))
      = Z.lor (f_flags (d_old delta)) GIT_DIFF_FILE_BINARY
   /\ f_flags (d_new (snd (file_is_binary_by_attr diff delta)))
      = Z.lor (f_flags (d_new delta)) GIT_DIFF_FILE_BINARY)
  /\ (size_overflows (repo diff) (f_size (d_old delta))
      || size_overflows (repo diff) (f_size (d_new delta)) = false ->
      has_flag (o_flags (opts diff)) GIT_DIFF_FORCE_TEXT = true ->
      fst (file_is_binary_by_attr diff delta) = GIT_SUCCESS
      /\ d_binary (snd (file_is_binary_by_attr diff delta)) = 0
      /\ f_flags (d_old (snd (file_is_binary_by_attr diff delta)))
         = Z.lor (f_flags (d_old delta)) GIT_DIFF_FILE_NOT_BINARY
      /\ f_flags (d_new (snd (file_is_binary_by_attr diff delta)))
         = Z.lor (f_flags (d_new delta)) GIT_DIFF_FILE_NOT_BINARY).
Proof.
  unfold file_is_binary_by_attr.
  cbn [set_d_binary d_old d_new f_size].
  split.
  - intros ->. now repeat split.
  - intros -> ->. now repeat split.
Qed.

Lemma classifier_guards_witness :
  d_binary (snd (file_is_binary_by_attr small_diff huge_delta)) = 1
  /\ d_binary (snd (file_is_binary_by_attr force_text_diff binary_delta)) = 0.
Proof.
  split.
  - apply (proj1 (classifier_guards small_diff huge_delta)). reflexivity.
  - apply (proj2 (classifier_guards force_text_diff binary_delta));
      reflexivity.
Defined.

(** ** The content loader *)

Lemma has_flag_clear_same (flags bit : Z) :
  has_flag (Z.land flags (Z.lnot bit)) bit = false.
Proof.
  unfold has_flag. rewrite <- Z.land_assoc, (Z.land_comm (Z.lnot bit)).
  now rewrite Z.land_lnot_diag, Z.land_0_r.
Qed.

Lemma has_flag_clear_other (flags bit other : Z) :
  Z.land (Z.lnot bit) other = other ->
  has_flag (Z.land flags (Z.lnot bit)) other = has_flag flags other.
Proof.
  intros H. unfold has_flag. now rewrite <- Z.land_assoc, H.
Qed.

Lemma has_flag_or_other (flags bit other : Z) :
  Z.land bit other = 0 ->
  has_flag (Z.lor flags bit) other = has_flag flags other.
Proof.
  intros H. unfold has_flag.
  now rewrite Z.land_lor_distr_l, H, Z.lor_0_r.
Qed.

Lemma has_flag_land (flags mask bit : Z) :
  has_flag flags bit = false -> has_flag (Z.land flags mask) bit = false.
Proof.
  unfold has_flag. intros H. apply negb_false_iff, Z.eqb_eq in H.
  apply negb_false_iff, Z.eqb_eq.
  now rewrite <- Z.land_assoc, (Z.land_comm mask), Z.land_assoc, H.
Qed.



Lemma release_content_clears (s : side) (file : git_diff_file) (map : git_map)
    (blob : option git_blob) (U : Type) (w : @world U) :
  owns_both file = false ->
  owns_data (fst (fst (release_content s file map blob w))) = false.
Proof.
  unfold owns_both, owns_data, release_content. intros Hboth.
  destruct (has_flag (f_flags file) GIT_DIFF_FILE_FREE_DATA) eqn:Hfree.
  - cbn [andb] in Hboth. cbn [fst clear_flag set_f_flags f_flags].
    rewrite has_flag_clear_same.
    rewrite has_flag_clear_other by reflexivity. now rewrite Hboth.
  - destruct (has_flag (f_flags file) GIT_DIFF_FILE_UNMAP_DATA) eqn:Hmap;
      cbn [fst clear_flag set_f_flags f_flags].
    + rewrite has_flag_clear_same.
      rewrite has_flag_clear_other by reflexivity. now rewrite Hfree.
    + now rewrite Hfree, Hmap.
Qed.

(** X10: releasing a side that owns at most one kind of data leaves it
    owning nothing, and a second release with no blob to free does
    nothing: same side, same map, no event. *)
Theorem release_content_twice (U : Type) (s : side) (file : git_diff_file)
    (map : git_map) (blob : option git_blob) (w : @world U) :
  owns_both file = false ->
  owns_data (fst (fst (release_content s file map blob w))) = false
  /\ release_content s (fst (fst (release_content s file map blob w)))
       (snd (fst (release_content s file map blob w))) None
       (snd (release_content s file map blob w))
     = release_content s file map blob w.
Proof.
  intros Hboth.
  pose proof (release_content_clears s file map blob U w Hboth) as Hclean.
  split; [exact Hclean|].
  destruct (release_content s file map blob w) as [[file' map'] w'].
  cbn [fst snd] in *. unfold owns_data in Hclean.
  apply orb_false_iff in Hclean as [Hfree Hmap].
  unfold release_content. now rewrite Hfree, Hmap.
Qed.

Lemma release_content_twice_witness :
  owns_data
    (fst (fst (release_content New_side
                 (or_flag link_file GIT_DIFF_FILE_FREE_DATA)
                 (map_of "target") None fresh_world)))
  = false.
Proof.
  apply (release_content_twice nat New_side
           (or_flag link_file GIT_DIFF_FILE_FREE_DATA) (map_of "target")
           None fresh_world).
  reflexivity.
Defined.

(** ** Stages, once more *)

Section Stage_rules.

Context {U : Type}.
Implicit Types (it : @iteration U) (w : @world U) (f : @flow U).

Lemma flow_inv_then (Exit Q R : @iteration U -> Prop) f stage :
  flow_inv Exit Q f -> stage_inv Q Exit R stage -> flow_inv Exit R (f >>> stage).
Proof.
  intros Hf Hstage. destruct f as [it | it | it]; cbn [and_then flow_inv] in *.
  - exact Hf.
  - now apply Hstage.
  - exact Hf.
Qed.

Lemma flow_inv_weaken (Exit Q R : @iteration U -> Prop) f :
  (forall it, Q it -> R it) -> flow_inv Exit Q f -> flow_inv Exit R f.
Proof. intros H. destruct f; cbn [flow_inv]; auto. Qed.

(** A round all of whose exits satisfy [Exit] is not aborted: it goes
    through [cleanup], in a state that satisfies [Exit]. *)
Lemma foreach_round_cleanup (Exit : @iteration U -> Prop) diff file_cb
    hunk_cb line_cb index delta w :
  flow_inv Exit Exit (round_flow diff file_cb hunk_cb line_cb index delta w) ->
  round_aborts diff file_cb hunk_cb line_cb index delta w = false
  /\ exists it,
       Exit it
       /\ foreach_round diff file_cb hunk_cb line_cb index delta w = cleanup it.
Proof.
  unfold round_aborts, foreach_round.
  destruct (round_flow diff file_cb hunk_cb line_cb index delta w)
    as [it | it | it]; cbn [flow_inv]; intros H; try contradiction;
    (split; [reflexivity | now exists it]).
Qed.

End Stage_rules.

(** ** Ownership of loaded data across a round *)

Lemma same_owner_refl (f : git_diff_file) : same_owner f f.
Proof. now split. Qed.

Lemma same_owner_data (f f' : git_diff_file) :
  same_owner f f' -> owns_data f' = owns_data f.
Proof. intros [H1 H2]. unfold owns_data. now rewrite H1, H2. Qed.

Lemma same_owner_both (f f' : git_diff_file) :
  same_owner f f' -> owns_both f' = owns_both f.
Proof. intros [H1 H2]. unfold owns_both. now rewrite H1, H2. Qed.

Lemma owns_data_both (f : git_diff_file) :
  owns_data f = false -> owns_both f = false.
Proof.
  unfold owns_data, owns_both. intros H.
  apply orb_false_iff in H as [-> _]. reflexivity.
Qed.

Lemma or_flag_same_owner (f : git_diff_file) (bit : Z) :
  Z.land bit GIT_DIFF_FILE_FREE_DATA = 0 ->
  Z.land bit GIT_DIFF_FILE_UNMAP_DATA = 0 ->
  same_owner f (or_flag f bit).
Proof.
  intros H1 H2. unfold same_owner. cbn [or_flag set_f_flags f_flags].
  now rewrite !has_flag_or_other by assumption.
Qed.

Lemma set_file_is_binary_by_attr_owner (r : git_repository)
    (file : git_diff_file) :
  same_owner file (snd (set_file_is_binary_by_attr r file)).
Proof.
  unfold set_file_is_binary_by_attr.
  destruct (git_attr_get r (f_path file) "diff") as [error value].
  destruct (negb (error =? GIT_SUCCESS)); [apply same_owner_refl|].
  destruct (GIT_ATTR_FALSE value);
    [now apply (or_flag_same_owner file GIT_DIFF_FILE_BINARY)|].
  destruct (GIT_ATTR_TRUE value);
    [now apply (or_flag_same_owner file GIT_DIFF_FILE_NOT_BINARY)|].
  apply same_owner_refl.
Qed.

Lemma sniff_side_owner (file : git_diff_file) (map : git_map) :
  same_owner file (sniff_side file map).
Proof.
  unfold sniff_side.
  destruct (Z.land (f_flags file) BINARY_DIFF_FLAGS =? 0);
    [|apply same_owner_refl].
  destruct (negb _);
    [now apply (or_flag_same_owner file GIT_DIFF_FILE_BINARY)
    |now apply (or_flag_same_owner file GIT_DIFF_FILE_NOT_BINARY)].
Qed.

Lemma owns_data_masked (f : git_diff_file) (mask : Z) :
  owns_data f = false ->
  owns_data (set_f_flags f (Z.land (f_flags f) mask)) = false.
Proof.
  unfold owns_data. cbn [set_f_flags f_flags]. intros H.
  apply orb_false_iff in H as [H1 H2].
  now rewrite !has_flag_land by assumption.
Qed.

(** The attribute phase gives no side anything to release. *)
Lemma file_is_binary_by_attr_owner (diff : git_diff_list)
    (delta : git_diff_delta) :
  owns_data (d_old delta) = false -> owns_data (d_new delta) = false ->
  owns_data (d_old (snd (file_is_binary_by_attr diff delta))) = false
  /\ owns_data (d_new (snd (file_is_binary_by_attr diff delta))) = false.
Proof.
  intros Ho Hn. unfold file_is_binary_by_attr.
  cbn [set_d_binary d_old d_new f_size].
  destruct (size_overflows _ _ || size_overflows _ _).
  { cbn [snd set_d_binary set_d_new set_d_old d_old d_new].
    rewrite !(same_owner_data _ _ (or_flag_same_owner _ GIT_DIFF_FILE_BINARY
                                     eq_refl eq_refl)).
    now split. }
  destruct (has_flag _ _).
  { cbn [snd set_d_binary set_d_new set_d_old d_old d_new].
    rewrite !(same_owner_data _ _ (or_flag_same_owner _ GIT_DIFF_FILE_NOT_BINARY
                                     eq_refl eq_refl)).
    now split. }
  pose proof (set_file_is_binary_by_attr_owner (repo diff) (d_old delta))
    as Hold.
  destruct (set_file_is_binary_by_attr (repo diff) (d_old delta))
    as [error old].
  cbn [snd] in Hold. apply same_owner_data in Hold. rewrite Ho in Hold.
  destruct (negb (error =? GIT_SUCCESS)); [now split|].
  cbn [set_d_old set_d_binary d_new d_old].
  destruct (same_path _ _).
  - cbn [snd]. rewrite set_delta_is_binary_old, set_delta_is_binary_new.
    cbn [set_d_new d_old d_new]. split; [exact Hold|].
    now apply owns_data_masked.
  - pose proof (set_file_is_binary_by_attr_owner (repo diff) (d_new delta))
      as Hnew.
    destruct (set_file_is_binary_by_attr (repo diff) (d_new delta))
      as [error' new].
    cbn [snd] in *. apply same_owner_data in Hnew. rewrite Hn in Hnew.
    rewrite set_delta_is_binary_old, set_delta_is_binary_new.
    now split.
Qed.

(** Loading from the working directory records one obligation at most. *)
Lemma get_workdir_content_owner (r : git_repository) (file : git_diff_file)
    (map : git_map) :
  owns_data file = false ->
  owns_both (snd (fst (get_workdir_content r file map))) = false.
Proof.
  intros Hclean. pose proof (owns_data_both file Hclean) as Hboth.
  unfold owns_data in Hclean. apply orb_false_iff in Hclean as [Hfree Hmap].
  unfold get_workdir_content.
  destruct (git_buf_joinpath r (f_path file)) as [error full_path].
  destruct (negb (error =? GIT_SUCCESS)); [exact Hboth|].
  assert (Hlink : owns_both
            (or_flag (or_flag file GIT_DIFF_FILE_FREE_DATA)
               GIT_DIFF_FILE_BINARY) = false).
  { unfold owns_both. cbn [or_flag set_f_flags f_flags].
    rewrite (has_flag_or_other _ GIT_DIFF_FILE_BINARY
               GIT_DIFF_FILE_UNMAP_DATA eq_refl).
    rewrite (has_flag_or_other _ GIT_DIFF_FILE_FREE_DATA
               GIT_DIFF_FILE_UNMAP_DATA eq_refl).
    rewrite Hmap. apply andb_false_r. }
  destruct (S_ISLNK (f_mode file)).
  - destruct (negb (git__malloc r _)); [exact Hlink|].
    destruct (p_readlink r full_path _) as [read_len target].
    destruct (negb (read_len =? _)); exact Hlink.
  - destruct (git_futils_mmap_ro_file r map full_path) as [error' map'].
    cbn [fst snd]. unfold owns_both. cbn [or_flag set_f_flags f_flags].
    rewrite (has_flag_or_other _ GIT_DIFF_FILE_UNMAP_DATA
               GIT_DIFF_FILE_FREE_DATA eq_refl).
    now rewrite Hfree.
Qed.

Section Ownership.

Context {U : Type}.
Implicit Types (it : @iteration U) (w : @world U).

Variable diff : git_diff_list.
Variable file_cb : option (@git_diff_file_fn U).
Variable hunk_cb : option (@git_diff_hunk_fn U).
Variable line_cb : option (@git_diff_line_fn U).

Lemma sides_clean_half it : sides_clean it -> sides_half it.
Proof. intros [Ho Hn]. split; [now apply owns_data_both | exact Hn]. Qed.

Lemma sides_half_single it : sides_half it -> sides_single it.
Proof. intros [Ho Hn]. split; [exact Ho | now apply owns_data_both]. Qed.

Lemma stage_classify_owner :
  stage_inv (U:=U) sides_clean sides_single sides_clean (stage_classify diff).
Proof.
  intros it [Ho Hn]. unfold stage_classify.
  destruct (file_is_binary_by_attr_owner diff (it_delta it) Ho Hn) as [Ho' Hn'].
  destruct (file_is_binary_by_attr diff (it_delta it)) as [error delta].
  cbn [snd] in *.
  destruct (error <? GIT_SUCCESS); cbn [flow_inv].
  - apply sides_half_single, sides_clean_half. now split.
  - now split.
Qed.

Lemma stage_load_old_owner :
  stage_inv (U:=U) sides_clean sides_single sides_half
    (stage_load_old diff hunk_cb line_cb).
Proof.
  intros it Hclean. pose proof (sides_clean_half it Hclean) as Hhalf.
  unfold stage_load_old.
  destruct (_ && _ && _); [|exact Hhalf].
  destruct Hclean as [Ho Hn].
  destruct (old_src diff);
    [destruct (get_blob_content _ _ _ _) as [[error map] blob] ..
    |pose proof (get_workdir_content_owner (repo diff) (d_old (it_delta it))
                   (it_old_data it) Ho) as Hload;
     destruct (get_workdir_content _ _ _) as [[error file] map]];
    cbv zeta; cbn [it_error set_it_old set_it_error set_it_delta];
    destruct (negb (error =? GIT_SUCCESS)); cbn [flow_inv];
    try exact Hhalf; try (apply sides_half_single; exact Hhalf);
    try (split; [exact Hload | exact Hn]).
  split; [exact Hload | now apply owns_data_both].
Qed.

Lemma stage_load_new_owner :
  stage_inv (U:=U) sides_half sides_single sides_single
    (stage_load_new diff hunk_cb line_cb).
Proof.
  intros it Hhalf. pose proof (sides_half_single it Hhalf) as Hsingle.
  unfold stage_load_new.
  destruct (_ && _ && _); [|exact Hsingle].
  destruct Hhalf as [Ho Hn].
  destruct (new_src diff);
    [destruct (get_blob_content _ _ _ _) as [[error map] blob] ..
    |pose proof (get_workdir_content_owner (repo diff) (d_new (it_delta it))
                   (it_new_data it) Hn) as Hload;
     destruct (get_workdir_content _ _ _) as [[error file] map]];
    cbv zeta; cbn [it_error set_it_new set_it_error set_it_delta];
    rewrite ?reconcile_oid_dead;
    destruct (negb (error =? GIT_SUCCESS)); cbn [flow_inv];
    try exact Hsingle; split; assumption.
Qed.

Lemma stage_sniff_owner :
  stage_inv (U:=U) sides_single sides_single sides_single (@stage_sniff U).
Proof.
  intros it [Ho Hn]. unfold stage_sniff.
  destruct (d_binary (it_delta it) =? -1); [|now split].
  assert (H : sides_single
                (set_it_delta it
                   (snd (file_is_binary_by_content (it_delta it)
                           (it_old_data it) (it_new_data it))))).
  { unfold file_is_binary_by_content, sides_single.
    cbn [snd set_it_delta it_delta].
    rewrite set_delta_is_binary_old, set_delta_is_binary_new.
    cbn [set_d_new set_d_old d_old d_new].
    rewrite !(same_owner_both _ _ (sniff_side_owner _ _)). now split. }
  destruct (file_is_binary_by_content _ _ _) as [error delta].
  cbn [snd] in H.
  destruct (error <? GIT_SUCCESS); exact H.
Qed.

Lemma stage_file_cb_owner index :
  stage_inv (U:=U) sides_single sides_single sides_single
    (stage_file_cb diff file_cb index).
Proof.
  intros it H. unfold stage_file_cb.
  destruct file_cb as [cb|]; [|exact H].
  destruct (call_file cb _ _ _) as [error w].
  destruct (negb (error =? GIT_SUCCESS)); exact H.
Qed.

Lemma stage_diff_owner :
  is_some hunk_cb || is_some line_cb = true ->
  stage_inv (U:=U) sides_single sides_single sides_single
    (stage_diff diff hunk_cb line_cb).
Proof.
  intros Hcb it H. unfold stage_diff. rewrite Hcb. cbn [negb].
  destruct (d_binary (it_delta it) =? 1); [exact H|].
  destruct (_ && _); [exact H|].
  destruct (setup_xdiff_options (Some (opts diff)))
    as [xdiff_config xdiff_params].
  destruct (xdl_diff _ _ _ _ _ _ _). exact H.
Qed.

Lemma cleanup_owner it :
  sides_single it ->
  owns_data (d_old (snd (fst (cleanup it)))) = false
  /\ owns_data (d_new (snd (fst (cleanup it)))) = false.
Proof.
  intros [Ho Hn]. unfold cleanup.
  pose proof (release_content_clears Old_side (d_old (it_delta it))
                (it_old_data it) (it_old_blob it) U (it_world it) Ho) as H1.
  destruct (release_content Old_side _ _ _ _) as [[old m1] w1].
  pose proof (release_content_clears New_side (d_new (it_delta it))
                (it_new_data it) (it_new_blob it) U w1 Hn) as H2.
  destruct (release_content New_side _ _ _ _) as [[new m2] w2].
  now split.
Qed.

End Ownership.

(** X11: with a hunk or a line callback a round is not aborted, and a
    delta neither side of which carries an ownership flag (data to free,
    data to unmap) when the round starts carries none when the round ends,
    whichever way it ends: the flags that loading set, the release at the
    [cleanup] label has cleared. *)
Theorem foreach_round_releases (U : Type) (diff : git_diff_list)
    (file_cb : option (@git_diff_file_fn U))
    (hunk_cb : option (@git_diff_hunk_fn U))
    (line_cb : option (@git_diff_line_fn U))
    (index : nat) (delta : git_diff_delta) (w : @world U) :
  is_some hunk_cb || is_some line_cb = true ->
  owns_data (d_old delta) = false -> owns_data (d_new delta) = false ->
  round_aborts diff file_cb hunk_cb line_cb index delta w = false
  /\ owns_data
       (d_old (snd (fst (foreach_round diff file_cb hunk_cb line_cb index
                           delta w)))) = false
  /\ owns_data
       (d_new (snd (fst (foreach_round diff file_cb hunk_cb line_cb index
                           delta w)))) = false.
Proof.
  intros Hcb Ho Hn.
  destruct (foreach_round_cleanup sides_single diff file_cb hunk_cb line_cb
              index delta w) as (Hrun & it & Hit & ->).
  { unfold round_flow.
    eapply flow_inv_then; [|now apply stage_diff_owner].
    eapply flow_inv_then; [|apply stage_file_cb_owner].
    eapply flow_inv_then; [|apply stage_sniff_owner].
    eapply flow_inv_then; [|apply stage_load_new_owner].
    eapply flow_inv_then; [|apply stage_load_old_owner].
    apply stage_classify_owner. now split. }
  split; [exact Hrun|]. now apply cleanup_owner.
Qed.

Lemma foreach_round_releases_witness :
  owns_data
    (d_new (snd (fst (foreach_round workdir_diff (Some ok_file_cb)
                        (Some ok_hunk_cb) (Some ok_line_cb) 0 touched_delta
                        fresh_world)))) = false.
Proof.
  apply (foreach_round_releases nat workdir_diff (Some ok_file_cb)
           (Some ok_hunk_cb) (Some ok_line_cb) 0 touched_delta fresh_world);
    reflexivity.
Defined.

(** Without a hunk and a line callback the round of a file of the working
    directory whose identity is not known yet fails the assertion: the
    process is aborted with the file still mapped. *)
Example aborted_round_keeps_mapping :
  round_aborts workdir_diff (Some ok_file_cb) None None 0 touched_delta
    fresh_world = true
  /\ map event_summary
       (trace (snd (foreach_round workdir_diff (Some ok_file_cb) None None 0
                      touched_delta fresh_world)))
     = ["file same.txt"; "abort"]%string
  /\ owns_data
       (d_new (snd (fst (foreach_round workdir_diff (Some ok_file_cb) None
                           None 0 touched_delta fresh_world)))) = true.
Proof. vm_compute. repeat split. Qed.


(** ** Rounds that end early *)

Section Early_exits.

Context {U : Type}.
Implicit Types (it : @iteration U) (w : @world U).

Lemma release_content_logs (P : event -> Prop) s file map blob w :
  (blob <> None -> P (Ev_blob_free s)) -> P (Ev_free s) -> P (Ev_unmap s) ->
  grows P w (snd (release_content s file map blob w)).
Proof.
  intros Hblob Hfree Hmap. unfold release_content.
  assert (H : grows P w
                match blob with Some _ => log (Ev_blob_free s) w | None => w end).
  { destruct blob; [|apply grows_refl]. apply grows_log, Hblob. discriminate. }
  destruct (has_flag _ GIT_DIFF_FILE_FREE_DATA);
    [|destruct (has_flag _ GIT_DIFF_FILE_UNMAP_DATA)]; cbn [snd];
    try (eapply grows_trans; [exact H | now apply grows_log]).
  exact H.
Qed.

Lemma cleanup_logs (P : event -> Prop) it :
  (it_old_blob it <> None -> P (Ev_blob_free Old_side)) ->
  (it_new_blob it <> None -> P (Ev_blob_free New_side)) ->
  (forall s, P (Ev_free s)) -> (forall s, P (Ev_unmap s)) ->
  grows P (it_world it) (snd (cleanup it))
  /\ fst (fst (cleanup it)) = it_error it.
Proof.
  intros Ho Hn Hfree Hmap. unfold cleanup.
  pose proof (release_content_logs P Old_side (d_old (it_delta it))
                (it_old_data it) (it_old_blob it) (it_world it)
                Ho (Hfree _) (Hmap _)) as H1.
  destruct (release_content Old_side _ _ _ _) as [[old m1] w1]. cbn [snd] in H1.
  pose proof (release_content_logs P New_side (d_new (it_delta it))
                (it_new_data it) (it_new_blob it) w1
                Hn (Hfree _) (Hmap _)) as H2.
  destruct (release_content New_side _ _ _ _) as [[new m2] w2]. cbn [snd] in H2.
  split; [eapply grows_trans; eassumption | reflexivity].
Qed.

Variable diff : git_diff_list.
Variable file_cb : option (@git_diff_file_fn U).
Variable hunk_cb : option (@git_diff_hunk_fn U).
Variable line_cb : option (@git_diff_line_fn U).

(** *** Deltas that are skipped *)

Lemma foreach_deltas_skipped ds :
  forall index w,
    forallb (skip_delta diff) ds = true ->
    foreach_deltas diff file_cb hunk_cb line_cb index ds w
    = (GIT_SUCCESS, ds, w).
Proof.
  induction ds as [|delta rest IH]; intros index w Hskip;
    cbn [foreach_deltas forallb] in *; [reflexivity|].
  apply andb_prop in Hskip as [-> Hrest]. now rewrite IH.
Qed.

(** *** The first error *)

Lemma foreach_deltas_error ds :
  forall index w,
    fst (fst (foreach_deltas diff file_cb hunk_cb line_cb index ds w))
    <> GIT_SUCCESS ->
    exists pre delta post pre' w0,
      ds = pre ++ delta :: post
      /\ skip_delta diff delta = false
      /\ foreach_deltas diff file_cb hunk_cb line_cb index pre w
         = (GIT_SUCCESS, pre', w0)
      /\ fst (fst (foreach_round diff file_cb hunk_cb line_cb
                     (index + List.length pre) delta w0)) <> GIT_SUCCESS
      /\ foreach_deltas diff file_cb hunk_cb line_cb index ds w
         = (fst (fst (foreach_round diff file_cb hunk_cb line_cb
                        (index + List.length pre) delta w0)),
            pre' ++ snd (fst (foreach_round diff file_cb hunk_cb line_cb
                                (index + List.length pre) delta w0)) :: post,
            snd (foreach_round diff file_cb hunk_cb line_cb
                   (index + List.length pre) delta w0)).
Proof.
  induction ds as [|delta rest IH]; intros index w Herr;
    cbn [foreach_deltas] in *; [now elim Herr|].
  destruct (skip_delta diff delta) eqn:Hskip.
  - destruct (foreach_deltas _ _ _ _ (S index) rest w) as [[e r] w'] eqn:Hrest.
    cbn [fst] in Herr.
    destruct (IH (S index) w) as (pre & d & post & pre' & w0 & -> & Hd & Hpre
                                  & Hne & Hall);
      [now rewrite Hrest|].
    exists (delta :: pre), d, post, (delta :: pre'), w0.
    cbn [List.length app foreach_deltas]. rewrite Hskip, Hpre.
    replace (index + S (List.length pre))%nat
      with (S index + List.length pre)%nat by lia.
    repeat split; try assumption.
    rewrite Hrest in Hall. now injection Hall as -> -> ->.
  - destruct (foreach_round _ _ _ _ index delta w) as [[e d'] w1] eqn:Hround.
    destruct (round_aborts _ _ _ _ index delta w) eqn:Hrun; cbn [orb] in *.
    { exists [], delta, rest, [], w.
      cbn [List.length app foreach_deltas]. rewrite Nat.add_0_r, Hround.
      now repeat split. }
    destruct (Z.eqb_spec e GIT_SUCCESS) as [-> | Hne]; cbn [negb] in *.
    + destruct (foreach_deltas _ _ _ _ (S index) rest w1) as [[e r] w']
        eqn:Hrest.
      cbn [fst] in Herr.
      destruct (IH (S index) w1) as (pre & d & post & pre' & w0 & -> & Hd
                                     & Hpre & Hne & Hall);
        [now rewrite Hrest|].
      exists (delta :: pre), d, post, (d' :: pre'), w0.
      cbn [List.length app foreach_deltas]. rewrite Hskip, Hround, Hrun, Hpre.
      cbn [Z.eqb GIT_SUCCESS negb orb].
      replace (index + S (List.length pre))%nat
        with (S index + List.length pre)%nat by lia.
      repeat split; try assumption.
      rewrite Hrest in Hall. now injection Hall as -> -> ->.
    + exists [], delta, rest, [], w.
      cbn [List.length app foreach_deltas]. rewrite Nat.add_0_r, Hround.
      now repeat split.
Qed.

(** *** A delta resolved binary by the attribute phase *)









(** *** A file callback that fails *)

Variable failing_cb : @git_diff_file_fn U.
Hypothesis always_fails : forall u d p, snd (failing_cb u d p) <> GIT_SUCCESS.

Let failed_exit (w0 : @world U) it : Prop :=
  it_error it <> GIT_SUCCESS /\ grows no_diff_event w0 (it_world it).

Let before_file (w0 : @world U) it : Prop :=
  grows no_diff_event w0 (it_world it).

Lemma negative_not_success (e : Z) :
  (e <? GIT_SUCCESS) = true -> e <> GIT_SUCCESS.
Proof. unfold GIT_SUCCESS. intros H. apply Z.ltb_lt in H. lia. Qed.

Lemma stage_classify_failing w0 :
  stage_inv (before_file w0) (failed_exit w0) (before_file w0)
    (stage_classify diff).
Proof.
  intros it Hg. unfold stage_classify.
  destruct (file_is_binary_by_attr diff (it_delta it)) as [error delta].
  destruct (error <? GIT_SUCCESS) eqn:He; cbn [flow_inv]; [|exact Hg].
  split; [now apply negative_not_success | exact Hg].
Qed.

Lemma stage_load_old_failing w0 :
  stage_inv (before_file w0) (failed_exit w0) (before_file w0)
    (stage_load_old diff hunk_cb line_cb).
Proof.
  intros it Hg. unfold stage_load_old.
  destruct (_ && _ && _); [|exact Hg].
  destruct (old_src diff);
    [destruct (get_blob_content _ _ _ _) as [[error map] blob] ..
    |destruct (get_workdir_content _ _ _) as [[error file] map]];
    cbv zeta; cbn [it_error set_it_old set_it_error set_it_delta];
    destruct (Z.eqb_spec error GIT_SUCCESS); cbn [negb flow_inv];
    try exact Hg; split; assumption.
Qed.

Lemma stage_load_new_failing w0 :
  stage_inv (before_file w0) (failed_exit w0) (before_file w0)
    (stage_load_new diff hunk_cb line_cb).
Proof.
  intros it Hg. unfold stage_load_new.
  destruct (_ && _ && _); [|exact Hg].
  destruct (new_src diff);
    [destruct (get_blob_content _ _ _ _) as [[error map] blob] ..
    |destruct (get_workdir_content _ _ _) as [[error file] map]];
    cbv zeta; cbn [it_error set_it_new set_it_error set_it_delta];
    rewrite ?reconcile_oid_dead;
    destruct (Z.eqb_spec error GIT_SUCCESS); cbn [negb flow_inv];
    try exact Hg; split; assumption.
Qed.

Lemma stage_sniff_failing w0 :
  stage_inv (before_file w0) (failed_exit w0) (before_file w0)
    (@stage_sniff U).
Proof.
  intros it Hg. unfold stage_sniff.
  destruct (d_binary (it_delta it) =? -1); [|exact Hg].
  destruct (file_is_binary_by_content _ _ _) as [error delta].
  destruct (error <? GIT_SUCCESS) eqn:He; cbn [flow_inv]; [|exact Hg].
  split; [now apply negative_not_success | exact Hg].
Qed.

Lemma stage_file_cb_failing w0 index :
  stage_inv (before_file w0) (failed_exit w0) (fun _ => False)
    (stage_file_cb diff (Some failing_cb) index).
Proof.
  intros it Hg. unfold stage_file_cb.
  pose proof (call_file_trace failing_cb (it_delta it)
                (index, List.length (deltas diff)) (it_world it)) as Htrace.
  assert (Herr : fst (call_file failing_cb (it_delta it)
                        (index, List.length (deltas diff)) (it_world it))
                 <> GIT_SUCCESS).
  { unfold call_file.
    pose proof (always_fails (cb_data (it_world it)) (it_delta it)
                  (index, List.length (deltas diff))) as H.
    now destruct (failing_cb _ _ _). }
  destruct (call_file failing_cb _ _ _) as [error w]. cbn [fst snd] in *.
  destruct (Z.eqb_spec error GIT_SUCCESS); [contradiction|].
  cbn [negb flow_inv]. split; [assumption|].
  eapply grows_trans; [exact Hg|].
  eexists; split; [exact Htrace | now repeat constructor].
Qed.

Lemma foreach_round_failing index delta w :
  fst (fst (foreach_round diff (Some failing_cb) hunk_cb line_cb index
              delta w)) <> GIT_SUCCESS
  /\ grows no_diff_event w
       (snd (foreach_round diff (Some failing_cb) hunk_cb line_cb index
               delta w)).
Proof.
  destruct (foreach_round_cleanup (failed_exit w) diff (Some failing_cb)
              hunk_cb line_cb index delta w) as (_ & it & H & ->).
  { unfold round_flow.
    apply (flow_inv_weaken _ (fun _ => False)); [contradiction|].
    eapply (flow_inv_then _ (fun _ => False)); [|intros it []].
    eapply flow_inv_then; [|apply stage_file_cb_failing].
    eapply flow_inv_then; [|apply stage_sniff_failing].
    eapply flow_inv_then; [|apply stage_load_new_failing].
    eapply flow_inv_then; [|apply stage_load_old_failing].
    apply stage_classify_failing. apply grows_refl. }
  destruct H as [Herr Hg].
  destruct (cleanup_logs no_diff_event it
              (fun _ => eq_refl) (fun _ => eq_refl)
              (fun _ => eq_refl) (fun _ => eq_refl)) as [Hc He].
  split; [now rewrite He | eapply grows_trans; eassumption].
Qed.

Lemma foreach_deltas_failing ds :
  forall index w,
    grows no_diff_event w
      (snd (foreach_deltas diff (Some failing_cb) hunk_cb line_cb index ds w))
    /\ (forallb (skip_delta diff) ds = false ->
        fst (fst (foreach_deltas diff (Some failing_cb) hunk_cb line_cb
                    index ds w)) <> GIT_SUCCESS).
Proof.
  induction ds as [|delta rest IH]; intros index w;
    cbn [foreach_deltas forallb].
  - split; [apply grows_refl | discriminate].
  - destruct (skip_delta diff delta).
    + destruct (IH (S index) w) as [Hg He].
      destruct (foreach_deltas _ _ _ _ (S index) rest w) as [[e r] w'].
      cbn [fst snd andb] in *. now split.
    + destruct (foreach_round_failing index delta w) as [He Hg].
      destruct (foreach_round _ _ _ _ index delta w) as [[e d'] w1].
      cbn [fst snd] in *.
      destruct (Z.eqb_spec e GIT_SUCCESS); [contradiction|].
      cbn [negb]. rewrite orb_true_r. cbn [fst snd andb]. now split.
Qed.

End Early_exits.

(** ** The driver: skipping, stopping, staying quiet *)

(** X12: a traversal all of whose deltas are skipped (unmodified ones, and
    ignored or untracked ones without the matching inclusion option) calls
    nothing, loads nothing, leaves the deltas as they are and returns
    success. *)
Theorem traversal_of_skipped_deltas (U : Type) (diff : git_diff_list)
    (data : U) (file_cb : option (@git_diff_file_fn U))
    (hunk_cb : option (@git_diff_hunk_fn U))
    (line_cb : option (@git_diff_line_fn U)) :
  forallb (skip_delta diff) (deltas diff) = true ->
  git_diff_foreach diff data file_cb hunk_cb line_cb
  = (GIT_SUCCESS, deltas diff, {| cb_data := data; trace := [] |}).
Proof.
  intros Hskip. unfold git_diff_foreach. now apply foreach_deltas_skipped.
Qed.

Lemma traversal_of_skipped_deltas_witness :
  git_diff_foreach unmodified_diff 0%nat (Some ok_file_cb) (Some ok_hunk_cb)
    (Some ok_line_cb)
  = (GIT_SUCCESS, deltas unmodified_diff, fresh_world).
Proof.
  apply (traversal_of_skipped_deltas nat unmodified_diff 0%nat).
  reflexivity.
Defined.

(** X13: a traversal that returns an error stopped in the round of one
    delta that was not skipped: the error is that round's, the deltas before
    it went through their rounds with success, and the deltas behind it are
    returned untouched, with no event after that round. *)
Theorem traversal_stops_at_error (U : Type) (diff : git_diff_list)
    (data : U) (file_cb : option (@git_diff_file_fn U))
    (hunk_cb : option (@git_diff_hunk_fn U))
    (line_cb : option (@git_diff_line_fn U)) :
  fst (fst (git_diff_foreach diff data file_cb hunk_cb line_cb))
  <> GIT_SUCCESS ->
  exists pre delta post pre' w0,
    deltas diff = pre ++ delta :: post
    /\ skip_delta diff delta = false
    /\ foreach_deltas diff file_cb hunk_cb line_cb 0 pre
         {| cb_data := data; trace := [] |}
       = (GIT_SUCCESS, pre', w0)
    /\ git_diff_foreach diff data file_cb hunk_cb line_cb
       = (fst (fst (foreach_round diff file_cb hunk_cb line_cb
                      (List.length pre) delta w0)),
          pre' ++ snd (fst (foreach_round diff file_cb hunk_cb line_cb
                              (List.length pre) delta w0)) :: post,
          snd (foreach_round diff file_cb hunk_cb line_cb
                 (List.length pre) delta w0)).
Proof.
  unfold git_diff_foreach. intros Herr.
  destruct (foreach_deltas_error diff file_cb hunk_cb line_cb (deltas diff)
              0 {| cb_data := data; trace := [] |} Herr)
    as (pre & delta & post & pre' & w0 & Hds & Hskip & Hpre & _ & Hall).
  exists pre, delta, post, pre', w0. cbn [Nat.add] in Hall.
  now repeat split.
Qed.

Lemma traversal_stops_at_error_witness :
  exists pre delta post pre' w0,
    deltas missing_blob_diff = pre ++ delta :: post
    /\ skip_delta missing_blob_diff delta = false
    /\ foreach_deltas missing_blob_diff None (Some ok_hunk_cb)
         (Some ok_line_cb) 0 pre {| cb_data := 0%nat; trace := [] |}
       = (GIT_SUCCESS, pre', w0)
    /\ git_diff_foreach missing_blob_diff 0%nat None (Some ok_hunk_cb)
         (Some ok_line_cb)
       = (fst (fst (foreach_round missing_blob_diff None (Some ok_hunk_cb)
                      (Some ok_line_cb) (List.length pre) delta w0)),
          pre' ++ snd (fst (foreach_round missing_blob_diff None
                              (Some ok_hunk_cb) (Some ok_line_cb)
                              (List.length pre) delta w0)) :: post,
          snd (foreach_round missing_blob_diff None (Some ok_hunk_cb)
                 (Some ok_line_cb) (List.length pre) delta w0)).
Proof.
  apply (traversal_stops_at_error nat missing_blob_diff 0%nat None
           (Some ok_hunk_cb) (Some ok_line_cb)).
  vm_compute. discriminate.
Defined.



(** X15: with a file callback that fails whenever it is called, a
    traversal produces no hunk and no line callback at all, and it returns
    an error as soon as one delta is not skipped. *)
Theorem failing_file_callback_stops_traversal (U : Type)
    (diff : git_diff_list) (data : U) (file_cb : @git_diff_file_fn U)
    (hunk_cb : option (@git_diff_hunk_fn U))
    (line_cb : option (@git_diff_line_fn U)) :
  (forall u d p, snd (file_cb u d p) <> GIT_SUCCESS) ->
  Forall no_diff_event
    (trace (snd (git_diff_foreach diff data (Some file_cb) hunk_cb line_cb)))
  /\ (forallb (skip_delta diff) (deltas diff) = false ->
      fst (fst (git_diff_foreach diff data (Some file_cb) hunk_cb line_cb))
      <> GIT_SUCCESS).
Proof.
  intros Hfails. unfold git_diff_foreach.
  destruct (foreach_deltas_failing diff hunk_cb line_cb file_cb Hfails
              (deltas diff) 0 {| cb_data := data; trace := [] |})
    as [(new & Ht & Hall) Herr].
  split; [now rewrite Ht | exact Herr].
Qed.

Lemma failing_file_callback_stops_traversal_witness :
  Forall no_diff_event
    (trace (snd (git_diff_foreach sample_diff 0%nat (Some failing_file_cb)
                   (Some ok_hunk_cb) (Some ok_line_cb))))
  /\ fst (fst (git_diff_foreach sample_diff 0%nat (Some failing_file_cb)
                 (Some ok_hunk_cb) (Some ok_line_cb)))
     <> GIT_SUCCESS.
Proof.
  destruct (failing_file_callback_stops_traversal nat sample_diff 0%nat
              failing_file_cb (Some ok_hunk_cb) (Some ok_line_cb))
    as [Hquiet Herr].
  - intros u d p. discriminate.
  - split; [exact Hquiet | apply Herr; reflexivity].
Defined.

(** X16: when the attribute lookup fails with a negative code, the round
    ends at once with that code: no callback is called and nothing is
    loaded. *)
Theorem attribute_failure_ends_round (U : Type) (diff : git_diff_list)
    (file_cb : option (@git_diff_file_fn U))
    (hunk_cb : option (@git_diff_hunk_fn U))
    (line_cb : option (@git_diff_line_fn U))
    (index : nat) (delta : git_diff_delta) (w : @world U) :
  fst (file_is_binary_by_attr diff delta) < GIT_SUCCESS ->
  fst (fst (foreach_round diff file_cb hunk_cb line_cb index delta w))
  = fst (file_is_binary_by_attr diff delta)
  /\ exists new,
       trace (snd (foreach_round diff file_cb hunk_cb line_cb index delta w))
       = trace w ++ new
       /\ Forall no_callback_event new
       /\ Forall quiet_event new.
Proof.
  intros Herr. unfold foreach_round, round_flow, stage_classify.
  cbn [it_delta].
  destruct (file_is_binary_by_attr diff delta) as [error d1].
  cbn [fst] in *. apply Z.ltb_lt in Herr. rewrite Herr.
  cbn [and_then flow_end].
  match goal with
  | |- context [cleanup ?it] =>
      destruct (cleanup_logs (fun e => no_callback_event e /\ quiet_event e) it)
        as [(new & Ht & Hall) He];
      try (intros; split; [reflexivity | exact I]);
      try (intros H; now elim H)
  end.
  split; [exact He|]. exists new. split; [exact Ht|].
  split; eapply Forall_impl; try exact Hall; now intros e [H1 H2].
Qed.

Lemma attribute_failure_ends_round_witness :
  fst (fst (foreach_round broken_attr_diff (Some ok_file_cb) (Some ok_hunk_cb)
              (Some ok_line_cb) 0 first_delta fresh_world))
  = GIT_ERROR.
Proof.
  apply (attribute_failure_ends_round nat broken_attr_diff (Some ok_file_cb)
           (Some ok_hunk_cb) (Some ok_line_cb) 0 first_delta fresh_world).
  reflexivity.
Defined.

(** ** The blob diff, once more *)

(** X17: every callback of the blob diff receives the one delta the
    function made up and returns; it calls no file callback and releases
    nothing. *)
Theorem git_diff_blobs_events (U : Type) (r : git_repository)
    (old_blob new_blob : option git_blob) (options : option git_diff_options)
    (data : U) (hunk_cb : option (@git_diff_hunk_fn U))
    (line_cb : option (@git_diff_line_fn U)) (stack : git_diff_delta) :
  Forall
    (fun e =>
       is_diff_event e = true
       /\ event_delta e
          = Some (snd (fst (git_diff_blobs r old_blob new_blob options data
                              hunk_cb line_cb stack))))
    (trace (snd (git_diff_blobs r old_blob new_blob options data hunk_cb
                   line_cb stack))).
Proof.
  unfold git_diff_blobs.
  destruct (setup_xdiff_options options) as [xdiff_config xdiff_params].
  destruct (match options with
            | Some o => has_flag (o_flags o) GIT_DIFF_REVERSE
            | None => false
            end);
    unfold xdl_diff;
    match goal with
    | |- context [xdl_emit (diff_output_cb ?info) ?units ?w] =>
        destruct (xdl_emit_grows info units w) as (new & Ht & Hall);
        destruct (xdl_emit (diff_output_cb info) units w) as [err w1]
    end;
    cbn [fst snd trace app info_delta] in *; now rewrite Ht.
Qed.

(** The options without the reverse flag. *)
Lemma setup_xdiff_options_plain (o : git_diff_options) :
  setup_xdiff_options (Some (plain_options o)) = setup_xdiff_options (Some o).
Proof.
  unfold setup_xdiff_options, plain_options.
  cbn [o_flags o_context_lines o_interhunk_lines].
  now rewrite !has_flag_clear_other by reflexivity.
Qed.

(** X18: the reverse flag of the blob diff does nothing but exchange the
    two blobs: the line diff is handed the same parameters and the same
    configuration with and without it, so that a reversed diff of two blobs
    is the diff, under the same options without the flag, of the two taken
    the other way round. *)
Theorem git_diff_blobs_reverse (U : Type) (r : git_repository)
    (old_blob new_blob : option git_blob) (o : git_diff_options)
    (data : U) (hunk_cb : option (@git_diff_hunk_fn U))
    (line_cb : option (@git_diff_line_fn U)) (stack : git_diff_delta) :
  has_flag (o_flags o) GIT_DIFF_REVERSE = true ->
  setup_xdiff_options (Some (plain_options o)) = setup_xdiff_options (Some o)
  /\ git_diff_blobs r old_blob new_blob (Some o) data hunk_cb line_cb stack
     = git_diff_blobs r new_blob old_blob (Some (plain_options o)) data
         hunk_cb line_cb stack.
Proof.
  intros Hrev. split; [apply setup_xdiff_options_plain|].
  unfold git_diff_blobs. rewrite setup_xdiff_options_plain, Hrev.
  unfold plain_options at 1. cbn [o_flags].
  now rewrite has_flag_clear_same.
Qed.

Lemma git_diff_blobs_reverse_witness :
  git_diff_blobs sample_repo (Some blob_a) (Some blob_b) (Some reverse_opts)
    0%nat (Some ok_hunk_cb) (Some ok_line_cb) stale_stack
  = git_diff_blobs sample_repo (Some blob_b) (Some blob_a)
      (Some (plain_options reverse_opts))
      0%nat (Some ok_hunk_cb) (Some ok_line_cb) stale_stack.
Proof.
  apply (git_diff_blobs_reverse nat sample_repo (Some blob_a) (Some blob_b)
           reverse_opts).
  reflexivity.
Defined.

(** ** The parameters of the line diff *)

(** X19: the context and the inter-hunk context handed to the line diff are
    those of the options, and 3 where the options are missing or have 0:
    they are never 0.  The only parameter flags set are whitespace flags,
    and ignoring all whitespace sets all three of them. *)
Theorem setup_xdiff_options_spec (opts : option git_diff_options) :
  ctxlen (fst (setup_xdiff_options opts)) <> 0
  /\ interhunkctxlen (fst (setup_xdiff_options opts)) <> 0
  /\ Z.land (xpp_flags (snd (setup_xdiff_options opts)))
       (Z.lnot XDF_WHITESPACE_FLAGS) = 0
  /\ (forall o, opts = Some o ->
        (o_context_lines o = 0 -> ctxlen (fst (setup_xdiff_options opts)) = 3)
        /\ (o_context_lines o <> 0 ->
            ctxlen (fst (setup_xdiff_options opts)) = o_context_lines o)
        /\ (o_interhunk_lines o = 0 ->
            interhunkctxlen (fst (setup_xdiff_options opts)) = 3)
        /\ (o_interhunk_lines o <> 0 ->
            interhunkctxlen (fst (setup_xdiff_options opts))
            = o_interhunk_lines o)
        /\ (has_flag (o_flags o) GIT_DIFF_IGNORE_WHITESPACE = true ->
            xpp_flags (snd (setup_xdiff_options opts))
            = XDF_WHITESPACE_FLAGS))
  /\ (opts = None ->
      setup_xdiff_options opts
      = ({| ctxlen := 3; interhunkctxlen := 3 |}, {| xpp_flags := 0 |})).
Proof.
  destruct opts as [o|]; cbn [setup_xdiff_options fst snd ctxlen
                              interhunkctxlen xpp_flags].
  - split.
    { destruct (Z.eqb_spec (o_context_lines o) 0); [discriminate | assumption]. }
    split.
    { destruct (Z.eqb_spec (o_interhunk_lines o) 0);
        [discriminate | assumption]. }
    split.
    { destruct (has_flag (o_flags o) GIT_DIFF_IGNORE_WHITESPACE),
        (has_flag (o_flags o) GIT_DIFF_IGNORE_WHITESPACE_CHANGE),
        (has_flag (o_flags o) GIT_DIFF_IGNORE_WHITESPACE_EOL); reflexivity. }
    split; [|discriminate].
    intros o' [= <-]. split; [|split; [|split; [|split]]].
    + intros ->. reflexivity.
    + intros Hne. apply Z.eqb_neq in Hne. now rewrite Hne.
    + intros ->. reflexivity.
    + intros Hne. apply Z.eqb_neq in Hne. now rewrite Hne.
    + intros ->.
      destruct (has_flag (o_flags o) GIT_DIFF_IGNORE_WHITESPACE_CHANGE),
        (has_flag (o_flags o) GIT_DIFF_IGNORE_WHITESPACE_EOL); reflexivity.
  - repeat split; try discriminate.
Qed.

Lemma setup_xdiff_options_spec_witness :
  ctxlen (fst (setup_xdiff_options (Some force_text_opts))) = 3
  /\ ctxlen (fst (setup_xdiff_options (Some sample_opts))) = 3
  /\ interhunkctxlen (fst (setup_xdiff_options (Some force_text_opts))) = 3
  /\ interhunkctxlen (fst (setup_xdiff_options (Some wide_opts))) = 7
  /\ xpp_flags (snd (setup_xdiff_options (Some wide_opts)))
     = XDF_WHITESPACE_FLAGS
  /\ setup_xdiff_options None
     = ({| ctxlen := 3; interhunkctxlen := 3 |}, {| xpp_flags := 0 |}).
Proof.
  destruct (setup_xdiff_options_spec (Some force_text_opts))
    as (_ & _ & _ & H1 & _).
  destruct (setup_xdiff_options_spec (Some sample_opts))
    as (_ & _ & _ & H2 & _).
  destruct (setup_xdiff_options_spec (Some wide_opts))
    as (_ & _ & _ & H3 & _).
  destruct (setup_xdiff_options_spec None) as (_ & _ & _ & _ & H4).
  split; [|split; [|split; [|split; [|split]]]].
  - apply (H1 force_text_opts eq_refl). reflexivity.
  - apply (H2 sample_opts eq_refl). discriminate.
  - apply (H1 force_text_opts eq_refl). reflexivity.
  - apply (H3 wide_opts eq_refl). discriminate.
  - apply (H3 wide_opts eq_refl). reflexivity.
  - apply H4. reflexivity.
Defined.


(** ** The verdict of the attributes *)

Lemma set_file_is_binary_by_attr_flags (r : git_repository)
    (file : git_diff_file) :
  fst (git_attr_get r (f_path file) "diff") = GIT_SUCCESS ->
  undecided file ->
  fst (set_file_is_binary_by_attr r file) = GIT_SUCCESS
  /\ f_path (snd (set_file_is_binary_by_attr r file)) = f_path file
  /\ has_flag (f_flags (snd (set_file_is_binary_by_attr r file)))
       GIT_DIFF_FILE_BINARY
     = GIT_ATTR_FALSE (snd (git_attr_get r (f_path file) "diff"))
  /\ has_flag (f_flags (snd (set_file_is_binary_by_attr r file)))
       GIT_DIFF_FILE_NOT_BINARY
     = GIT_ATTR_TRUE (snd (git_attr_get r (f_path file) "diff")).
Proof.
  intros Hok Hund. unfold set_file_is_binary_by_attr.
  destruct (git_attr_get r (f_path file) "diff") as [error value].
  cbn [fst snd] in *. subst error. cbn [GIT_SUCCESS Z.eqb negb].
  destruct (undecided_flags file Hund) as [Hb Hn].
  assert (Hfb : has_flag (f_flags file) GIT_DIFF_FILE_BINARY = false)
    by (unfold has_flag; now rewrite Hb).
  assert (Hfn : has_flag (f_flags file) GIT_DIFF_FILE_NOT_BINARY = false)
    by (unfold has_flag; now rewrite Hn).
  destruct value; cbn [GIT_ATTR_FALSE GIT_ATTR_TRUE fst snd or_flag
                       set_f_flags f_flags f_path];
    repeat split; try assumption;
    rewrite ?has_flag_set by discriminate;
    rewrite ?has_flag_or_other by reflexivity; try assumption; reflexivity.
Qed.

Lemma same_path_eq (a b : option string) : same_path a b = true -> a = b.
Proof.
  destruct a as [x|], b as [y|]; cbn [same_path]; try discriminate.
  - intros H. apply String.eqb_eq in H. now subst.
  - reflexivity.
Qed.

(** X20: past the two guards, with both lookups succeeding on two sides not
    decided before, the attribute phase leaves the delta with the verdict
    of the "diff" attributes of its two paths: binary if one is false, else
    text if one is true, else unresolved.  This holds too when the two
    paths are the same and the attribute is looked up once. *)
Theorem attribute_verdict (diff : git_diff_list) (delta : git_diff_delta) :
  size_overflows (repo diff) (f_size (d_old delta)) = false ->
  size_overflows (repo diff) (f_size (d_new delta)) = false ->
  has_flag (o_flags (opts diff)) GIT_DIFF_FORCE_TEXT = false ->
  undecided (d_old delta) -> undecided (d_new delta) ->
  fst (git_attr_get (repo diff) (f_path (d_old delta)) "diff") = GIT_SUCCESS ->
  fst (git_attr_get (repo diff) (f_path (d_new delta)) "diff") = GIT_SUCCESS ->
  fst (file_is_binary_by_attr diff delta) = GIT_SUCCESS
  /\ d_binary (snd (file_is_binary_by_attr diff delta))
     = attr_verdict
         (snd (git_attr_get (repo diff) (f_path (d_old delta)) "diff"))
         (snd (git_attr_get (repo diff) (f_path (d_new delta)) "diff")).
Proof.
  intros Hso Hsn Hforce Huo Hun Hao Han.
  destruct (set_file_is_binary_by_attr_flags (repo diff) (d_old delta) Hao Huo)
    as (Heo & Hpo & Hbo & Hno).
  destruct (set_file_is_binary_by_attr_flags (repo diff) (d_new delta) Han Hun)
    as (Hen & _ & Hbn & Hnn).
  unfold file_is_binary_by_attr.
  cbn [set_d_binary d_old d_new f_size]. rewrite Hso, Hsn, Hforce. cbn [orb].
  destruct (set_file_is_binary_by_attr (repo diff) (d_old delta))
    as [error old].
  cbn [fst snd] in *. subst error.
  cbn [GIT_SUCCESS Z.eqb negb set_d_old set_d_binary d_new d_old].
  rewrite Hpo.
  destruct (same_path (f_path (d_new delta)) (f_path (d_old delta))) eqn:Hsame.
  - apply same_path_eq in Hsame. rewrite Hsame.
    cbn [fst snd]. split; [reflexivity|].
    unfold set_delta_is_binary, attr_verdict.
    cbn [set_d_new set_d_old set_d_binary d_old d_new set_f_flags f_flags].
    destruct (undecided_flags (d_new delta) Hun) as [Hb Hn].
    rewrite !has_flag_land by (unfold has_flag; now rewrite ?Hb, ?Hn).
    rewrite Hbo, Hno, !orb_false_r, !orb_diag.
    now destruct (GIT_ATTR_FALSE _), (GIT_ATTR_TRUE _).
  - destruct (set_file_is_binary_by_attr (repo diff) (d_new delta))
      as [error new].
    cbn [fst snd] in *. subst error. split; [reflexivity|].
    unfold set_delta_is_binary, attr_verdict.
    cbn [set_d_new set_d_old set_d_binary d_old d_new].
    rewrite Hbo, Hno, Hbn, Hnn.
    generalize (snd (git_attr_get (repo diff) (f_path (d_old delta)) "diff")).
    generalize (snd (git_attr_get (repo diff) (f_path (d_new delta)) "diff")).
    now intros [| |] [| |].
Qed.

Lemma attribute_verdict_witness :
  d_binary (snd (file_is_binary_by_attr sample_diff binary_delta)) = 1
  /\ d_binary (snd (file_is_binary_by_attr sample_diff moved_delta)) = 1
  /\ d_binary (snd (file_is_binary_by_attr sample_diff first_delta)) = -1.
Proof.
  split; [|split].
  - apply (attribute_verdict sample_diff binary_delta); reflexivity.
  - apply (attribute_verdict sample_diff moved_delta); reflexivity.
  - apply (attribute_verdict sample_diff first_delta); reflexivity.
Defined.
